(** * Verification of the corpus annotator [NLProcessor]

    Shallow embedding of
    [src/topic_labeling/preprocessing/nlp_processor.py]: the token-table
    assembly ([df_from_docs]), the per-document annotation loop
    ([process_docs]), the document loader ([read]), persistence ([store])
    and the orchestrator ([read_process_store]).

    The spaCy pipeline is a black box: a function [nlp] from a text to a
    [Doc].  pandas tables are modelled column-wise, pickle files as a finite
    map from paths to tables. *)

From stdpp Require Import gmap strings list fin_maps pretty.

Open Scope Z_scope.

(** ** Python values held in table cells *)

(** [VNone] is [None]; [VNaN] is the float [nan] that pandas puts into the
    cells it has no value for. *)
Inductive value : Type :=
  | VNone
  | VNaN
  | VStr (s : string)
  | VInt (z : Z)
  | VBool (b : bool).

#[global] Instance value_eq_dec : EqDecision value.
Proof. solve_decision. Defined.

(** Python truthiness, as used by [filter(None, ...)] and [if x or y]. *)
Definition truthy (v : value) : bool :=
  match v with
  | VNone => false
  | VNaN => true
  | VStr s => negb (String.eqb s "")
  | VInt z => negb (z =? 0)
  | VBool b => b
  end.

(** Python [==] between cells ([True == 1], a [str] never equals a number,
    [nan] equals nothing). *)
Definition py_eq (a b : value) : bool :=
  match a, b with
  | VNone, VNone => true
  | VStr s, VStr t => String.eqb s t
  | VInt x, VInt y => x =? y
  | VBool x, VBool y => Bool.eqb x y
  | VInt x, VBool y | VBool y, VInt x => x =? (if y then 1 else 0)
  | _, _ => false
  end.

(** ** Column names *)

(** Modelled from the spec: the column-name constants of
    [topic_labeling.utils.constants], a module that is not part of the
    sources.  Only their being pairwise distinct matters to the code;
    [OtherCol] stands for any further column a pickled table may carry. *)
Inductive column : Type :=
  | HASH | TITLE | DESCRIPTION | TEXT | LEMMA | IWNLP | POS | TOK_IDX
  | SENT_START | ENT_IOB | ENT_TYPE | ENT_IDX | TOKEN | SENT_IDX
  | NOUN_PHRASE
  | OtherCol (name : string).

#[global] Instance column_eq_dec : EqDecision column.
Proof. solve_decision. Defined.

(** [FIELDS], line 19 of the source. *)
Definition FIELDS : list column :=
  [HASH; TOK_IDX; SENT_IDX; TEXT; TOKEN; POS; ENT_IOB; ENT_IDX; ENT_TYPE;
   NOUN_PHRASE].

(** ** Exceptions and the error monad *)

Inductive error : Type :=
  | KeyError (c : column)             (* a column label is missing *)
  | FileNotFoundError (path : string) (* [read_pickle] of a missing file *)
  | TypeError_format                  (* ["{:d}".format(None)] *)
  | TypeError_operand                 (* [None - 1] *)
  | TypeError_join                    (* [str.join] over a non-[str] item *)
  | TypeError_cumsum                  (* [cumsum] over a non-numeric cell *)
  | ValueError_unpack.                (* tuple unpacking of the wrong arity *)

Inductive result (A : Type) : Type :=
  | Ok (a : A)
  | Raise (e : error).
Arguments Ok {A} a.
Arguments Raise {A} e.

#[global] Instance result_ret : MRet result := fun A a => Ok a.
#[global] Instance result_bind : MBind result := fun A B f m =>
  match m with
  | Ok a => f a
  | Raise e => Raise e
  end.

(** ** Data frames *)

(** A table: the row labels and the columns in their order. *)
Record DataFrame : Type := mkDataFrame {
  df_index : list value;
  df_columns : list (column * list value)
}.

Fixpoint assoc (c : column) (cols : list (column * list value))
  : option (list value) :=
  match cols with
  | [] => None
  | (c', v) :: rest => if decide (c = c') then Some v else assoc c rest
  end.

(** [df[c]] *)
Definition get_col (df : DataFrame) (c : column) : result (list value) :=
  match assoc c (df_columns df) with
  | Some v => Ok v
  | None => Raise (KeyError c)
  end.

Fixpoint assoc_set (c : column) (v : list value)
  (cols : list (column * list value)) : list (column * list value) :=
  match cols with
  | [] => [(c, v)]
  | (c', v') :: rest =>
      if decide (c = c') then (c, v) :: rest
      else (c', v') :: assoc_set c v rest
  end.

(** [df[c] = v]: replaces the column, or appends it as the last one. *)
Definition set_col (df : DataFrame) (c : column) (v : list value)
  : DataFrame :=
  mkDataFrame (df_index df) (assoc_set c v (df_columns df)).

(** Row-wise choice between a new and an old cell under a boolean mask. *)
Fixpoint mask_assign (mask : list bool) (rhs old : list value)
  : list value :=
  match mask, rhs, old with
  | m :: mask', r :: rhs', o :: old' =>
      (if m then r else o) :: mask_assign mask' rhs' old'
  | _, _, _ => []
  end.

(** The column [c] of [df], or a column of [nan] when [df] has none yet
    (pandas creates it on assignment through [.loc]). *)
Definition col_or_new (df : DataFrame) (c : column) : list value :=
  match assoc c (df_columns df) with
  | Some v => v
  | None => replicate (length (df_index df)) VNaN
  end.

(** [df.loc[mask, c] = rhs] for a series [rhs] over the rows of [df]; the
    row labels are unique, so the assignment is row by row. *)
Definition loc_set (df : DataFrame) (mask : list bool) (c : column)
  (rhs : list value) : DataFrame :=
  set_col df c (mask_assign mask rhs (col_or_new df c)).

(** [df.loc[mask, c] = v] for a scalar [v]. *)
Definition loc_fill (df : DataFrame) (mask : list bool) (c : column)
  (v : value) : DataFrame :=
  set_col df c
    (mask_assign mask (replicate (length mask) v) (col_or_new df c)).

(** [series.isnull()] *)
Definition isnull (s : list value) : list bool :=
  map (fun v => match v with VNone | VNaN => true | _ => false end) s.

(** Membership as [isin] tests it: equality, and [nan] matches [nan]. *)
Definition isin_eq (a b : value) : bool :=
  match a, b with
  | VNaN, VNaN => true
  | _, _ => py_eq a b
  end.

(** [series.isin(values)] *)
Definition isin (s : list value) (values : list value) : list bool :=
  map (fun v => existsb (isin_eq v) values) s.

(** [series == v] *)
Definition series_eq (s : list value) (v : value) : list bool :=
  map (fun x => py_eq x v) s.

(** Numeric reading of a cell, for [cumsum]. *)
Definition as_num (v : value) : option Z :=
  match v with
  | VInt z => Some z
  | VBool b => Some (if b then 1 else 0)
  | _ => None
  end.

Fixpoint cumsum_from (acc : Z) (s : list value) : result (list value) :=
  match s with
  | [] => Ok []
  | v :: s' =>
      match as_num v with
      | Some z => rest ← cumsum_from (acc + z) s'; Ok (VInt (acc + z) :: rest)
      | None => Raise TypeError_cumsum
      end
  end.

(** [series.cumsum()] over a column of integers or booleans. *)
Definition cumsum (s : list value) : result (list value) := cumsum_from 0 s.

(** [df[cols]]: projection on a list of columns, in the order given. *)
Definition select (df : DataFrame) (cols : list column) : result DataFrame :=
  picked ← mapM (fun c => v ← get_col df c; Ok (c, v)) cols;
  Ok (mkDataFrame (df_index df) picked).

(** Python slicing [l[start:stop]] with step 1: negative offsets count from
    the end, everything is clipped to the length. *)
Definition clip (n : Z) (i : Z) : Z :=
  if i <? 0 then Z.max (i + n) 0 else Z.min i n.

Definition py_slice {A} (start : Z) (stop : option Z) (l : list A) : list A :=
  let n := Z.of_nat (length l) in
  let lo := clip n start in
  let hi := match stop with Some s => clip n s | None => n end in
  take (Z.to_nat (hi - lo)) (drop (Z.to_nat lo) l).

(** [df.iloc[start:stop]] *)
Definition iloc (df : DataFrame) (start : Z) (stop : option Z) : DataFrame :=
  mkDataFrame (py_slice start stop (df_index df))
    (map (fun '(c, v) => (c, py_slice start stop v)) (df_columns df)).

Fixpoint mask_filter {A} (mask : list bool) (l : list A) : list A :=
  match mask, l with
  | m :: mask', x :: l' =>
      if m then x :: mask_filter mask' l' else mask_filter mask' l'
  | _, _ => []
  end.

(** [df[mask]]: the rows where the mask holds. *)
Definition filter_rows (df : DataFrame) (mask : list bool) : DataFrame :=
  mkDataFrame (mask_filter mask (df_index df))
    (map (fun '(c, v) => (c, mask_filter mask v)) (df_columns df)).

(** [df.itertuples()]: one tuple per row, the row label first.  A table is
    rectangular: the default cell stands in only where a column is shorter
    than the index. *)
Fixpoint itertuples_rows (idx : list value) (cols : list (list value))
  : list (list value) :=
  match idx with
  | [] => []
  | k :: idx' =>
      (k :: map (hd VNone) cols) :: itertuples_rows idx' (map (@tl value) cols)
  end.

Definition itertuples (df : DataFrame) : list (list value) :=
  itertuples_rows (df_index df) (map snd (df_columns df)).

(** ** The spaCy objects the code reads *)

(** Modelled from the spec: the value of the token extension
    [iwnlp_lemmas], set by [LemmatizerPlus], a class that is not part of
    the sources: zero or one dictionary lemma. *)
Definition iwnlp_lemma : Type := option string.

Module Token.
(** The attributes of a spaCy token that [process_docs] reads. *)
Record t : Type := mk {
  i : Z;
  text : string;
  lemma_ : string;
  iwnlp_lemmas : iwnlp_lemma;
  pos_ : string;
  is_sent_start : option bool;
  ent_iob_ : string;
  ent_type_ : string
}.
End Token.

(** A span iterates over its tokens. *)
Definition Span : Type := list Token.t.

(** A parsed document: iterating it yields [doc_tokens]; [noun_chunks] are
    the spans of its noun phrases, in the order the pipeline emits them. *)
Record Doc : Type := mkDoc {
  doc_tokens : list Token.t;
  noun_chunks : list Span
}.

(** One token record, the ten-element list built at lines 116-121. *)
Record attr : Type := mkAttr {
  attr_hash : value;
  attr_text : string;
  attr_lemma : string;
  attr_iwnlp : iwnlp_lemma;
  attr_pos : string;
  attr_tok_idx : Z;
  attr_sent_start : Z;
  attr_ent_iob : string;
  attr_ent_type : string;
  attr_noun_phrase : Z
}.

(** The table cell of a dictionary lemma. *)
Definition opt_str (o : iwnlp_lemma) : value :=
  match o with
  | Some s => VStr s
  | None => VNone
  end.

(** UTF-8 bytes of U+2013, the en dash. *)
Definition en_dash : string :=
  String (Ascii.ascii_of_nat 226)
    (String (Ascii.ascii_of_nat 128)
       (String (Ascii.ascii_of_nat 147) EmptyString)).

(** [list('[]<>/–%')]: the seven one-character strings. *)
Definition punct_symbols : list value :=
  map VStr ["["; "]"; "<"; ">"; "/"; en_dash; "%"]%string.

(** ['\n'] *)
Definition newline : string := String (Ascii.ascii_of_nat 10) EmptyString.

(** [sep.join(items)] *)
Fixpoint str_join (sep : string) (items : list value) : result string :=
  match items with
  | [] => Ok EmptyString
  | VStr s :: rest =>
      match rest with
      | [] => Ok s
      | _ :: _ => r ← str_join sep rest; Ok (s +:+ sep +:+ r)
      end
  | _ :: _ => Raise TypeError_join
  end.

(** [key, title, descr, text = kv] *)
Definition unpack4 (kv : list value)
  : result (value * value * value * value) :=
  match kv with
  | [key; title; descr; text] => Ok (key, title, descr, text)
  | _ => Raise ValueError_unpack
  end.

(** Lines 112-113: every token of the chunk is entered under the chunk's
    number; a token entered before is overwritten. *)
Definition mark_chunk (chunk_idx : Z) (noun_phrases : gmap Z Z) (chunk : Span)
  : gmap Z Z :=
  foldl (fun np token => <[Token.i token := chunk_idx]> np) noun_phrases chunk.

(** Lines 110-113, one chunk: the counter goes up once, before the tokens
    of the chunk are entered. *)
Definition chunk_step (st : Z * gmap Z Z) (chunk : Span) : Z * gmap Z Z :=
  let '(chunk_idx, noun_phrases) := st in
  (chunk_idx + 1, mark_chunk (chunk_idx + 1) noun_phrases chunk).

(** Lines 109-113: the dictionary starts empty for every document, the
    counter goes on from its last value. *)
Definition mark_chunks (chunk_idx : Z) (chunks : list Span) : Z * gmap Z Z :=
  foldl chunk_step (chunk_idx, ∅) chunks.

(** Lines 116-121, for one token. *)
Definition token_attr (key : value) (noun_phrases : gmap Z Z)
  (token : Token.t) : attr :=
  mkAttr key
    (Token.text token) (Token.lemma_ token) (Token.iwnlp_lemmas token)
    (Token.pos_ token)
    (Token.i token)
    (if default false (Token.is_sent_start token) || (Token.i token =? 0)
     then 1 else 0)
    (Token.ent_iob_ token) (Token.ent_type_ token)
    (default 0 (noun_phrases !! Token.i token)).

(** ** The world: pickle files, and what a run does to the outside *)

(** What a run does besides computing: lines handed to [self.logg], the
    preview printed by [tprint], directories made, tables pickled, the
    vocabulary written. *)
Inductive event : Type :=
  | Log (msg : string)
  | Tprint (df : DataFrame) (head : value)
  | Makedirs (path : string)
  | ToPickle (path : string) (df : DataFrame)
  | VocabToDisk (path : string).

(** The pickled tables on disk, by path, and the events so far. *)
Record world : Type := mkWorld {
  files : gmap string DataFrame;
  trace : list event
}.

(** Code with effects: it may raise, and the world it leaves is kept in
    both cases. *)
Definition IO (A : Type) : Type := world -> result A * world.

#[global] Instance IO_ret : MRet IO := fun A a w => (Ok a, w).
#[global] Instance IO_bind : MBind IO := fun A B f m w =>
  match m w with
  | (Ok a, w') => f a w'
  | (Raise e, w') => (Raise e, w')
  end.

Definition lift {A} (r : result A) : IO A := fun w => (r, w).

Definition emit (e : event) : IO unit :=
  fun w => (Ok tt, mkWorld (files w) (trace w ++ [e])).

(** [self.logg(msg)] *)
Definition logg (msg : string) : IO unit := emit (Log msg).

(** [pd.read_pickle(path)] *)
Definition read_pickle (path : string) : IO DataFrame :=
  fun w =>
    match files w !! path with
    | Some df => (Ok df, w)
    | None => (Raise (FileNotFoundError path), w)
    end.

(** [df.to_pickle(path)] *)
Definition to_pickle (df : DataFrame) (path : string) : IO unit :=
  fun w =>
    (Ok tt,
     mkWorld (<[path := df]> (files w)) (trace w ++ [ToPickle path df])).

(** [needle in hay] on strings. *)
Fixpoint contains (needle hay : string) : bool :=
  String.prefix needle hay
  || match hay with
     | EmptyString => false
     | String _ hay' => contains needle hay'
     end.

(** ["{:d}".format(v)]: [None] has no such format. *)
Definition format_d (v : option Z) : result string :=
  match v with
  | Some z => Ok (pretty z)
  | None => Raise TypeError_format
  end.

(** ["{:02d}".format(z)] *)
Definition format_02d (z : Z) : string :=
  let s := pretty z in
  if (String.length s <? 2)%nat then "0" +:+ s else s.

(** [a - b] for an [a] that may be [None]. *)
Definition sub (a : option Z) (b : Z) : result Z :=
  match a with
  | Some z => Ok (z - b)
  | None => Raise TypeError_operand
  end.

(** Truthiness of an integer or [None]. *)
Definition truthy_int (o : option Z) : bool :=
  match o with
  | Some z => negb (z =? 0)
  | None => false
  end.

(** ** The program *)

Section Program.

(** The constants [PUNCT], [NLP_DIR], [ETL_DIR] and [VOC_DIR] of the
    constants module, and [os.path.join]. *)
Variable PUNCT : string.
Variables NLP_DIR ETL_DIR VOC_DIR : string.
Variable join : string -> string -> string.

(** The loaded pipeline, [self.nlp]. *)
Variable nlp : string -> Doc.

(** What the two calls of [gc.collect()] return, and the whole seconds
    [int(time() - t0)] the run took. *)
Variables gc_first gc_second elapsed : Z.

(** [pd.DataFrame(docs, columns=[...])], lines 155-160. *)
Definition DataFrame_of_docs (docs : list attr) : DataFrame :=
  mkDataFrame (map VInt (seqZ 0 (Z.of_nat (length docs))))
    [ (HASH, map attr_hash docs);
      (TEXT, map (fun r => VStr (attr_text r)) docs);
      (LEMMA, map (fun r => VStr (attr_lemma r)) docs);
      (IWNLP, map (fun r => opt_str (attr_iwnlp r)) docs);
      (POS, map (fun r => VStr (attr_pos r)) docs);
      (TOK_IDX, map (fun r => VInt (attr_tok_idx r)) docs);
      (SENT_START, map (fun r => VInt (attr_sent_start r)) docs);
      (ENT_IOB, map (fun r => VStr (attr_ent_iob r)) docs);
      (ENT_TYPE, map (fun r => VStr (attr_ent_type r)) docs);
      (NOUN_PHRASE, map (fun r => VInt (attr_noun_phrase r)) docs) ].

(** [df_from_docs], lines 148-179.  The three [astype("category")] calls
    change the storage of a column, not its values. *)
Definition df_from_docs (docs : list attr) : result DataFrame :=
  let df := DataFrame_of_docs docs in
  iwnlp ← get_col df IWNLP;
  let mask_iwnlp := map negb (isnull iwnlp) in
  let df := loc_set df mask_iwnlp TOKEN iwnlp in
  lemma ← get_col df LEMMA;
  let df := loc_set df (map negb mask_iwnlp) TOKEN lemma in
  token ← get_col df TOKEN;
  let mask_punct := isin token punct_symbols in
  let df := loc_fill df mask_punct POS (VStr PUNCT) in
  sent_start ← get_col df SENT_START;
  sent_idx ← cumsum sent_start;
  let df := set_col df SENT_IDX sent_idx in
  ent_iob ← get_col df ENT_IOB;
  let df := set_col df ENT_IDX (map VBool (series_eq ent_iob (VStr "B"))) in
  ent_idx ← get_col df ENT_IDX;
  ent_idx ← cumsum ent_idx;
  let df := set_col df ENT_IDX ent_idx in
  ent_iob ← get_col df ENT_IOB;
  let df := loc_fill df (series_eq ent_iob (VStr "O")) ENT_IDX (VInt 0) in
  select df FIELDS.

(** The loop of [process_docs], lines 97-123, over the tuples that are
    left; [chunk_idx] and [docs] are the two variables it updates.  The
    progress bar of [tqdm] is left out. *)
Fixpoint process_loop (rows : list (list value)) (chunk_idx : Z)
  (docs : list attr) : result (list attr) :=
  match rows with
  | [] => Ok docs
  | kv :: rows' =>
      '(key, title, descr, text) ← unpack4 kv;
      joined ← str_join newline (List.filter truthy [title; descr; text]);
      let doc := nlp joined in
      let '(chunk_idx, noun_phrases) :=
        mark_chunks chunk_idx (noun_chunks doc) in
      let attrs := map (token_attr key noun_phrases) (doc_tokens doc) in
      process_loop rows' chunk_idx (docs ++ attrs)
  end.

(** The token records [process_docs] has accumulated when it reaches
    line 125. *)
Definition token_records (text_df : DataFrame) : result (list attr) :=
  process_loop (itertuples text_df) 0 [].

(** [process_docs], lines 87-125. *)
Definition process_docs (text_df : DataFrame) : result DataFrame :=
  docs ← token_records text_df;
  df_from_docs docs.

(** [store], lines 127-133. *)
Definition store (corpus : string) (df : DataFrame) (suffix : string)
  : IO unit :=
  emit (Makedirs NLP_DIR);;
  let filename := join NLP_DIR (corpus +:+ suffix +:+ ".pickle") in
  logg (corpus +:+ ": saving to " +:+ filename);;
  to_pickle df filename.

(** [read], lines 135-145; [df.copy()] returns an equal table. *)
Definition read (f : string) (start : Z) (stop : option Z) : IO DataFrame :=
  raw ← read_pickle f;
  picked ← lift (select raw [TITLE; DESCRIPTION; TEXT]);
  let df := iloc picked start stop in
  df ← (if contains "dewiki" f then
          good_ids ← read_pickle (join ETL_DIR "dewiki_good_ids.pickle");
          mret (filter_rows df (isin (df_index df) (df_index good_ids)))
        else mret df);
  logg ("using " +:+ pretty (Z.of_nat (length (df_index df)))
        +:+ " documents");;
  mret df.

(** [read_process_store], lines 41-78.  [do_store] is the parameter
    [store]; [kwargs] is the dictionary of the further keyword arguments. *)
Definition read_process_store (file_path corpus_name : string)
  (do_store vocab_to_disk : bool) (start : Z) (stop : option Z)
  (kwargs : gmap string value) : IO unit :=
  logg ("*** start new corpus: " +:+ corpus_name);;
  slicing ← lift (if truthy_int (Some start) || truthy_int stop
                  then a ← format_d (Some start); b ← format_d stop;
                       Ok ("[" +:+ a +:+ ":" +:+ b +:+ "]")
                  else Ok EmptyString);
  logg (corpus_name +:+ ": reading corpus" +:+ slicing +:+ " from "
        +:+ file_path);;
  df ← read file_path start stop;
  logg ("collect: " +:+ pretty gc_first);;
  logg (corpus_name +:+ ": start processing");;
  df ← lift (process_docs df);
  logg ("collect: " +:+ pretty gc_second);;
  (if truthy (default (VBool false) (kwargs !! "print"))
   then emit (Tprint df (default (VInt 10) (kwargs !! "head")))
   else mret tt);;
  (if do_store then
     suffix ← lift (if truthy_int (Some start) || truthy_int stop
                    then last ← sub stop 1;
                         a ← format_d (Some start); b ← format_d (Some last);
                         Ok ("_" +:+ a +:+ "_" +:+ b +:+ "_nlp")
                    else Ok "_nlp");
     store corpus_name df suffix
   else mret tt);;
  (if vocab_to_disk then
     logg ("writing spacy vocab to disk: " +:+ VOC_DIR);;
     emit (Makedirs VOC_DIR);;
     emit (VocabToDisk VOC_DIR)
   else mret tt);;
  let t1 := elapsed in
  logg (corpus_name +:+ ": done in " +:+ format_02d (t1 / 3600) +:+ ":"
        +:+ format_02d ((t1 / 60) mod 60) +:+ ":" +:+ format_02d (t1 mod 60)).

End Program.

(** ** Notions used in the statements *)

Definition sumZ (l : list Z) : Z := foldr Z.add 0 l.

(** The resolved token of a record, lines 162-164. *)
Definition resolved_token (r : attr) : string :=
  match attr_iwnlp r with
  | Some lemma => lemma
  | None => attr_lemma r
  end.

(** 1 on the rows whose entity tag is ['B'], line 171. *)
Definition begin_flag (r : attr) : Z :=
  if String.eqb (attr_ent_iob r) "B" then 1 else 0.

(** The state [df_from_docs] reaches at line 179, over arbitrary columns
    and the two cumulative sums. *)
Definition assembled_columns (PUNCT : string)
  (idx h t l iw p ti io ty np sidx eidx : list value) : DataFrame :=
  let tok :=
    mask_assign (map negb (map negb (isnull iw))) l
      (mask_assign (map negb (isnull iw)) iw
         (replicate (length idx) VNaN)) in
  let punct := isin tok punct_symbols in
  let outside := series_eq io (VStr "O") in
  mkDataFrame idx
    [ (HASH, h); (TOK_IDX, ti); (SENT_IDX, sidx); (TEXT, t); (TOKEN, tok);
      (POS, mask_assign punct (replicate (length punct) (VStr PUNCT)) p);
      (ENT_IOB, io);
      (ENT_IDX, mask_assign outside (replicate (length outside) (VInt 0)) eidx);
      (ENT_TYPE, ty); (NOUN_PHRASE, np) ].

(** The table [df_from_docs] returns, column by column. *)
Definition assembled (PUNCT : string) (docs : list attr) : DataFrame :=
  mkDataFrame (map VInt (seqZ 0 (Z.of_nat (length docs))))
    [ (HASH, map attr_hash docs);
      (TOK_IDX, map (fun r => VInt (attr_tok_idx r)) docs);
      (SENT_IDX,
        imap (fun i _ => VInt (sumZ (take (S i) (map attr_sent_start docs))))
          docs);
      (TEXT, map (fun r => VStr (attr_text r)) docs);
      (TOKEN, map (fun r => VStr (resolved_token r)) docs);
      (POS,
        map (fun r =>
               VStr (if bool_decide
                          (resolved_token r
                             ∈ ["["; "]"; "<"; ">"; "/"; en_dash; "%"]%string)
                     then PUNCT else attr_pos r)) docs);
      (ENT_IOB, map (fun r => VStr (attr_ent_iob r)) docs);
      (ENT_IDX,
        imap (fun i r =>
                VInt (if String.eqb (attr_ent_iob r) "O" then 0
                      else sumZ (take (S i) (map begin_flag docs)))) docs);
      (ENT_TYPE, map (fun r => VStr (attr_ent_type r)) docs);
      (NOUN_PHRASE, map (fun r => VInt (attr_noun_phrase r)) docs) ].

(** What one iteration of [process_docs] reads from its tuple: the key and
    the parsed document, lines 104-106. *)
Definition row_doc (nlp : string -> Doc) (kv : list value)
  : result (value * Doc) :=
  '(key, title, descr, text) ← unpack4 kv;
  joined ← str_join newline (List.filter truthy [title; descr; text]);
  Ok (key, nlp joined).

(** The documents of a batch with their keys, in table order. *)
Definition batch_docs (nlp : string -> Doc) (text_df : DataFrame)
  : result (list (value * Doc)) :=
  mapM (row_doc nlp) (itertuples text_df).

(** The records of the documents of a batch, the chunk counter being
    [chunk_idx] when the first of them is reached. *)
Fixpoint batch_attrs (chunk_idx : Z) (batch : list (value * Doc))
  : list attr :=
  match batch with
  | [] => []
  | (key, doc) :: rest =>
      let st := mark_chunks chunk_idx (noun_chunks doc) in
      map (token_attr key st.2) (doc_tokens doc) ++ batch_attrs st.1 rest
  end.

(** The tokens of a batch in emission order, each with the key and the
    document it belongs to and with the number of chunks that were emitted
    before that document, [before] counting those before the batch. *)
Fixpoint batch_tokens (before : Z) (batch : list (value * Doc))
  : list (value * Doc * Z * Token.t) :=
  match batch with
  | [] => []
  | (key, doc) :: rest =>
      map (fun token => (key, doc, before, token)) (doc_tokens doc)
      ++ batch_tokens (before + Z.of_nat (length (noun_chunks doc))) rest
  end.

(** All chunks of a batch, in emission order. *)
Definition batch_chunks (batch : list (value * Doc)) : list Span :=
  concat (map (fun kd => noun_chunks kd.2) batch).

(** No token index lies in two chunks of the document. *)
Definition disjoint_chunks (doc : Doc) : Prop :=
  forall (k k' : nat) (c c' : Span) (x : Z),
    k ≠ k' -> noun_chunks doc !! k = Some c ->
    noun_chunks doc !! k' = Some c' ->
    x ∈ Token.i <$> c -> x ∉ Token.i <$> c'.

(** A table cell that is a string or [None]. *)
Definition text_cell (v : value) : Prop := v = VNone \/ exists s, v = VStr s.

(** The table [read] returns, as a function of the files alone. *)
Definition read_table (ETL_DIR : string) (join : string -> string -> string)
  (fs : gmap string DataFrame) (f : string) (start : Z) (stop : option Z)
  : result DataFrame :=
  match fs !! f with
  | None => Raise (FileNotFoundError f)
  | Some raw =>
      picked ← select raw [TITLE; DESCRIPTION; TEXT];
      let df := iloc picked start stop in
      if contains "dewiki" f then
        match fs !! join ETL_DIR "dewiki_good_ids.pickle" with
        | None =>
            Raise (FileNotFoundError (join ETL_DIR "dewiki_good_ids.pickle"))
        | Some good_ids =>
            Ok (filter_rows df (isin (df_index df) (df_index good_ids)))
        end
      else Ok df
  end.

(** The line [read] logs. *)
Definition read_log (df : DataFrame) : event :=
  Log ("using " +:+ pretty (Z.of_nat (length (df_index df))) +:+ " documents").

(** ** The claims that fail, as they are stated *)

(** The entity index is 0 on the Outside rows and on no other row. *)
Definition zero_exactly_outside (docs : list attr) (ent_idx : list value)
  : Prop :=
  forall (i : nat) (r : attr),
    docs !! i = Some r ->
    (ent_idx !! i = Some (VInt 0) <-> attr_ent_iob r = "O"%string).

(** All tokens of a chunk carry one nonzero noun-phrase id; [recs] are the
    records of the document, token by token. *)
Definition chunk_tokens_share_id (doc : Doc) (recs : list attr) : Prop :=
  forall c : Span,
    c ∈ noun_chunks doc ->
    exists id : Z,
      id ≠ 0 /\
      forall (p : nat) (t : Token.t) (r : attr),
        doc_tokens doc !! p = Some t -> recs !! p = Some r ->
        Token.i t ∈ Token.i <$> c -> attr_noun_phrase r = id.

(** The loader returns the rows at the offsets [start], ..., [stop - 1] of
    the three text columns. *)
Definition loads_offset_range (ETL_DIR : string)
  (join : string -> string -> string) (w : world) (f : string)
  (start stop : Z) : Prop :=
  forall source picked : DataFrame,
    files w !! f = Some source ->
    select source [TITLE; DESCRIPTION; TEXT] = Ok picked ->
    exists df : DataFrame,
      (read ETL_DIR join f start (Some stop) w).1 = Ok df /\
      df_index df
      = take (Z.to_nat (stop - start)) (drop (Z.to_nat start) (df_index picked))
      /\ df_columns df
         = map (fun '(c, v) =>
                  (c, take (Z.to_nat (stop - start)) (drop (Z.to_nat start) v)))
             (df_columns picked).




(** The run is ended by the subtraction [stop - 1] of the suffix. *)
Definition fails_in_suffix (PUNCT NLP_DIR ETL_DIR VOC_DIR : string)
  (join : string -> string -> string) (nlp : string -> Doc)
  (gc_first gc_second elapsed : Z) (file_path corpus_name : string)
  (vocab_to_disk : bool) (start : Z) (kwargs : gmap string value)
  (w : world) : Prop :=
  (read_process_store PUNCT NLP_DIR ETL_DIR VOC_DIR join nlp gc_first
     gc_second elapsed file_path corpus_name true vocab_to_disk start None
     kwargs w).1
  = Raise TypeError_operand.

(** ** Sample inputs *)

Definition sample_join (a b : string) : string := a +:+ "/" +:+ b.

(** The scenario of two documents: "Cat Dog" as a title alone, and "Run."
    as a description between an empty title and an empty body. *)
Definition tok_cat : Token.t :=
  Token.mk 0 "Cat" "cat" (Some "Katze"%string) "NOUN" None "B" "PER".
Definition tok_dog : Token.t :=
  Token.mk 1 "Dog" "dog" None "NOUN" None "I" "PER".
Definition tok_run : Token.t :=
  Token.mk 0 "Run" "run" None "VERB" (Some true) "O" "".
Definition tok_dot : Token.t :=
  Token.mk 1 "." "%" None "X" None "O" "".

Definition sample_nlp (s : string) : Doc :=
  if String.eqb s "Cat Dog" then mkDoc [tok_cat; tok_dog] [[tok_cat; tok_dog]]
  else if String.eqb s "Run." then mkDoc [tok_run; tok_dot] [[tok_run]]
  else mkDoc [] [].

Definition sample_source : DataFrame :=
  mkDataFrame [VStr "A"; VStr "B"]
    [ (OtherCol "url", [VNone; VNone]);
      (TITLE, [VStr "Cat Dog"; VStr ""]);
      (DESCRIPTION, [VNone; VStr "Run."]);
      (TEXT, [VNone; VStr ""]) ].

Definition sample_text_df : DataFrame :=
  mkDataFrame [VStr "A"; VStr "B"]
    [ (TITLE, [VStr "Cat Dog"; VStr ""]);
      (DESCRIPTION, [VNone; VStr "Run."]);
      (TEXT, [VNone; VStr ""]) ].

Definition sample_records : list attr :=
  [ mkAttr (VStr "A") "Cat" "cat" (Some "Katze"%string) "NOUN" 0 1 "B" "PER" 1;
    mkAttr (VStr "A") "Dog" "dog" None "NOUN" 1 0 "I" "PER" 1;
    mkAttr (VStr "B") "Run" "run" None "VERB" 0 1 "O" "" 2;
    mkAttr (VStr "B") "." "%" None "X" 1 0 "O" "" 0 ].

Definition sample_table : DataFrame :=
  mkDataFrame [VInt 0; VInt 1; VInt 2; VInt 3]
    [ (HASH, [VStr "A"; VStr "A"; VStr "B"; VStr "B"]);
      (TOK_IDX, [VInt 0; VInt 1; VInt 0; VInt 1]);
      (SENT_IDX, [VInt 1; VInt 1; VInt 2; VInt 2]);
      (TEXT, [VStr "Cat"; VStr "Dog"; VStr "Run"; VStr "."]);
      (TOKEN, [VStr "Katze"; VStr "dog"; VStr "run"; VStr "%"]);
      (POS, [VStr "NOUN"; VStr "NOUN"; VStr "VERB"; VStr "PUNCT"]);
      (ENT_IOB, [VStr "B"; VStr "I"; VStr "O"; VStr "O"]);
      (ENT_IDX, [VInt 1; VInt 1; VInt 0; VInt 0]);
      (ENT_TYPE, [VStr "PER"; VStr "PER"; VStr ""; VStr ""]);
      (NOUN_PHRASE, [VInt 1; VInt 1; VInt 2; VInt 0]) ].

(** A source of [n] documents, keyed 0, 1, ... *)
Definition numbered_source (n : nat) : DataFrame :=
  mkDataFrame (map VInt (seqZ 0 (Z.of_nat n)))
    [ (TITLE, replicate n (VStr "Cat Dog"));
      (DESCRIPTION, replicate n VNone);
      (TEXT, replicate n (VStr "Run.")) ].

Definition sample_good_ids : DataFrame :=
  mkDataFrame [VInt 6; VInt 7; VInt 50] [].

Definition sample_world : world :=
  mkWorld
    (<["etl/news.pickle" := sample_source]>
       (<["etl/news20.pickle" := numbered_source 20]>
          (<["etl/dewiki.pickle" := numbered_source 20]>
             (<["etl/dewiki_good_ids.pickle" := sample_good_ids]> ∅))))
    [].

(** A document whose second chunk begins inside the first. *)
Definition tok_peters : Token.t :=
  Token.mk 0 "Peters" "Peter" None "PROPN" None "O" "".
Definition tok_neues : Token.t :=
  Token.mk 1 "neues" "neu" None "ADJ" None "O" "".
Definition tok_haus : Token.t :=
  Token.mk 2 "Haus" "Haus" None "NOUN" None "O" "".

Definition overlap_doc : Doc :=
  mkDoc [tok_peters; tok_neues; tok_haus]
    [[tok_peters; tok_neues]; [tok_neues; tok_haus]].

Definition overlap_nlp (s : string) : Doc := overlap_doc.

Definition overlap_text_df : DataFrame :=
  mkDataFrame [VStr "A"]
    [ (TITLE, [VStr "Peters neues Haus"]);
      (DESCRIPTION, [VNone]);
      (TEXT, [VNone]) ].

(** A document whose first entity tag is Inside. *)
Definition inside_nlp (s : string) : Doc :=
  mkDoc [Token.mk 0 "Haus" "Haus" None "NOUN" None "I" "LOC"] [].


(** ** [check_docs] *)

(** [str(token.is_sent_start)], as [print] writes it. *)
Definition str_flag (o : option bool) : string :=
  match o with
  | None => "None"
  | Some true => "True"
  | Some false => "False"
  end.

(** The line that [print(token.i, token.is_sent_start, token.text)]
    writes. *)
Definition print_line (token : Token.t) : string :=
  pretty (Token.i token) +:+ " " +:+ str_flag (Token.is_sent_start token)
  +:+ " " +:+ Token.text token.

(** The loop of [check_docs], lines 81-85, over the tuples that are left;
    [out] holds the lines printed so far, which stay printed when a later
    tuple raises. *)
Fixpoint check_loop (nlp : string -> Doc) (rows : list (list value))
  (out : list string) : result unit * list string :=
  match rows with
  | [] => (Ok tt, out)
  | kv :: rows' =>
      match unpack4 kv with
      | Raise e => (Raise e, out)
      | Ok (key, title, descr, text) =>
          match str_join newline (List.filter truthy [title; descr; text]) with
          | Raise e => (Raise e, out)
          | Ok joined =>
              check_loop nlp rows'
                (out ++ map print_line (doc_tokens (nlp joined)))
          end
      end
  end.

(** [check_docs], lines 80-85: what it returns or raises, and the lines it
    has printed. *)
Definition check_docs (nlp : string -> Doc) (text_df : DataFrame)
  : result unit * list string :=
  check_loop nlp (itertuples text_df) [].

(** ** Further notions used in the statements *)

(** The strings among some cells that are not empty, in their order. *)
Definition cell_texts (cells : list value) : list string :=
  omap (fun v =>
          match v with
          | VStr s => if String.eqb s "" then None else Some s
          | _ => None
          end) cells.

(** The record [r] with its noun-phrase id raised by [k], unless the id
    is 0. *)
Definition shift_noun_phrase (k : Z) (r : attr) : attr :=
  mkAttr (attr_hash r) (attr_text r) (attr_lemma r) (attr_iwnlp r)
    (attr_pos r) (attr_tok_idx r) (attr_sent_start r) (attr_ent_iob r)
    (attr_ent_type r)
    (if attr_noun_phrase r =? 0 then 0 else attr_noun_phrase r + k).


(** Every column of the table has one cell per row label. *)
Definition rectangular (df : DataFrame) : Prop :=
  Forall (fun cv => length cv.2 = length (df_index df)) (df_columns df).

(** A table of two documents, the second with a [nan] for a title. *)
Definition nan_text_df : DataFrame :=
  mkDataFrame [VStr "A"; VStr "B"]
    [ (TITLE, [VStr "Cat Dog"; VNaN]);
      (DESCRIPTION, [VNone; VStr "Run."]);
      (TEXT, [VNone; VStr ""]) ].

(** What [read_process_store] does from line 49 on, once the part of the
    log line that names the range, [slicing], has been made; [suffix] is
    the suffix of line 66 or of line 68. *)
Definition run_from_read (PUNCT NLP_DIR ETL_DIR VOC_DIR : string)
  (join : string -> string -> string) (nlp : string -> Doc)
  (gc_first gc_second elapsed : Z) (file_path corpus_name : string)
  (do_store vocab_to_disk : bool) (start : Z) (stop : option Z)
  (kwargs : gmap string value) (slicing suffix : string) (w : world)
  : result unit * world :=
  let opening :=
    [ Log ("*** start new corpus: " +:+ corpus_name);
      Log (corpus_name +:+ ": reading corpus" +:+ slicing +:+ " from "
           +:+ file_path) ] in
  match read_table ETL_DIR join (files w) file_path start stop with
  | Raise e => (Raise e, mkWorld (files w) (trace w ++ opening))
  | Ok src =>
      let reading :=
        opening
        ++ [ read_log src;
             Log ("collect: " +:+ pretty gc_first);
             Log (corpus_name +:+ ": start processing") ] in
      match process_docs PUNCT nlp src with
      | Raise e => (Raise e, mkWorld (files w) (trace w ++ reading))
      | Ok df =>
          let filename := join NLP_DIR (corpus_name +:+ suffix +:+ ".pickle") in
          (Ok tt,
           mkWorld
             (if do_store then <[filename := df]> (files w) else files w)
             (trace w ++ reading
              ++ [Log ("collect: " +:+ pretty gc_second)]
              ++ (if truthy (default (VBool false) (kwargs !! "print"))
                  then [Tprint df (default (VInt 10) (kwargs !! "head"))]
                  else [])
              ++ (if do_store
                  then [ Makedirs NLP_DIR;
                         Log (corpus_name +:+ ": saving to " +:+ filename);
                         ToPickle filename df ]
                  else [])
              ++ (if vocab_to_disk
                  then [ Log ("writing spacy vocab to disk: " +:+ VOC_DIR);
                         Makedirs VOC_DIR; VocabToDisk VOC_DIR ]
                  else [])
              ++ [ Log (corpus_name +:+ ": done in "
                        +:+ format_02d (elapsed / 3600) +:+ ":"
                        +:+ format_02d ((elapsed / 60) mod 60) +:+ ":"
                        +:+ format_02d (elapsed mod 60)) ]))
      end
  end.

(** A list of events, given in full, does not hold the event sought. *)
Ltac not_among :=
  let H := fresh "H" in
  intros H;
  repeat (apply elem_of_cons in H as [H|H]; [discriminate H|]);
  by apply elem_of_nil in H.

(** * Token-table assembly *)

(** The sample records and the sample table are what the program computes
    for the two sample documents. *)
Example sample_table_assembled :
  token_records sample_nlp sample_text_df = Ok sample_records /\
  process_docs "PUNCT" sample_nlp sample_text_df = Ok sample_table.
Proof. split; reflexivity. Qed.

(** ** Lists: masks and prefix sums *)

Lemma sumZ_app (l1 l2 : list Z) : sumZ (l1 ++ l2) = sumZ l1 + sumZ l2.
Proof. induction l1 as [|x l1 IH]; simpl; [done | rewrite IH; lia]. Qed.

Lemma mask_assign_imap {A} (m : A -> bool) (f : A -> value)
  (g : nat -> A -> value) (l : list A) :
  mask_assign (map m l) (map f l) (imap g l)
  = imap (fun i x => if m x then f x else g i x) l.
Proof.
  revert g. induction l as [|x l IH]; intros g; simpl; [done|].
  by rewrite IH.
Qed.

Lemma mask_assign_map {A} (m : A -> bool) (f g : A -> value) (l : list A) :
  mask_assign (map m l) (map f l) (map g l)
  = map (fun x => if m x then f x else g x) l.
Proof. induction l as [|x l IH]; simpl; [done | by rewrite IH]. Qed.

Lemma replicate_map_const {A B} (v : B) (l : list A) :
  replicate (length l) v = map (fun _ => v) l.
Proof. induction l as [|x l IH]; simpl; [done | by rewrite IH]. Qed.

Lemma length_range (n : nat) : length (map VInt (seqZ 0 (Z.of_nat n))) = n.
Proof. rewrite length_map, length_seqZ. lia. Qed.

(** [cumsum] over a numeric column never raises: row [i] of the result is
    the sum of the rows 0 to [i]. *)
Lemma cumsum_from_map {A} (f : A -> value) (g : A -> Z) (acc : Z)
  (l : list A) :
  (forall x, as_num (f x) = Some (g x)) ->
  cumsum_from acc (map f l)
  = Ok (imap (fun i _ => VInt (acc + sumZ (take (S i) (map g l)))) l).
Proof.
  intros Hf. revert acc. induction l as [|x l IH]; intros acc; simpl; [done|].
  rewrite Hf, IH. simpl. f_equal. f_equal.
  - f_equal. lia.
  - apply imap_ext. intros i y Hy. simpl. f_equal. lia.
Qed.

Lemma cumsum_map {A} (f : A -> value) (g : A -> Z) (l : list A) :
  (forall x, as_num (f x) = Some (g x)) ->
  cumsum (map f l) = Ok (imap (fun i _ => VInt (sumZ (take (S i) (map g l)))) l).
Proof. intros Hf. unfold cumsum. by rewrite (cumsum_from_map f g). Qed.

Lemma existsb_py_eq_str (s : string) (l : list string) :
  existsb (isin_eq (VStr s)) (map VStr l) = bool_decide (s ∈ l).
Proof.
  induction l as [|x l IH]; simpl; [done|].
  rewrite IH. destruct (String.eqb_spec s x) as [->|Hne]; simpl.
  - symmetry. apply bool_decide_eq_true. left.
  - apply bool_decide_ext. rewrite elem_of_cons. tauto.
Qed.

(** ** The assembled table in closed form *)

Lemma df_from_docs_columns (PUNCT : string)
  (idx h t l iw p ti ss io ty np : list value) :
  (let df :=
     mkDataFrame idx
       [ (HASH, h); (TEXT, t); (LEMMA, l); (IWNLP, iw); (POS, p);
         (TOK_IDX, ti); (SENT_START, ss); (ENT_IOB, io); (ENT_TYPE, ty);
         (NOUN_PHRASE, np) ] in
   iwnlp ← get_col df IWNLP;
   let mask_iwnlp := map negb (isnull iwnlp) in
   let df := loc_set df mask_iwnlp TOKEN iwnlp in
   lemma ← get_col df LEMMA;
   let df := loc_set df (map negb mask_iwnlp) TOKEN lemma in
   token ← get_col df TOKEN;
   let mask_punct := isin token punct_symbols in
   let df := loc_fill df mask_punct POS (VStr PUNCT) in
   sent_start ← get_col df SENT_START;
   sent_idx ← cumsum sent_start;
   let df := set_col df SENT_IDX sent_idx in
   ent_iob ← get_col df ENT_IOB;
   let df := set_col df ENT_IDX (map VBool (series_eq ent_iob (VStr "B"))) in
   ent_idx ← get_col df ENT_IDX;
   ent_idx ← cumsum ent_idx;
   let df := set_col df ENT_IDX ent_idx in
   ent_iob ← get_col df ENT_IOB;
   let df := loc_fill df (series_eq ent_iob (VStr "O")) ENT_IDX (VInt 0) in
   select df FIELDS)
  = (sidx ← cumsum ss;
     eidx ← cumsum (map VBool (series_eq io (VStr "B")));
     Ok (assembled_columns PUNCT idx h t l iw p ti io ty np sidx eidx)).
Proof.
  unfold assembled_columns, select, get_col, loc_set, loc_fill, set_col,
    col_or_new, FIELDS, mbind, result_bind, mret, result_ret; simpl.
  destruct (cumsum ss); [|reflexivity]. simpl.
  destruct (cumsum _); reflexivity.
Qed.

Lemma token_column (docs : list attr) (n : nat) :
  n = length docs ->
  mask_assign
    (map negb
       (map negb (isnull (map (fun r => opt_str (attr_iwnlp r)) docs))))
    (map (fun r => VStr (attr_lemma r)) docs)
    (mask_assign
       (map negb (isnull (map (fun r => opt_str (attr_iwnlp r)) docs)))
       (map (fun r => opt_str (attr_iwnlp r)) docs) (replicate n VNaN))
  = map (fun r => VStr (resolved_token r)) docs.
Proof.
  intros ->. unfold isnull.
  rewrite replicate_map_const, !map_map, !mask_assign_map.
  apply map_ext. intros r. unfold resolved_token.
  by destruct (attr_iwnlp r).
Qed.

Lemma pos_column (PUNCT : string) (docs : list attr) :
  let tok := map (fun r => VStr (resolved_token r)) docs in
  mask_assign (isin tok punct_symbols)
    (replicate (length (isin tok punct_symbols)) (VStr PUNCT))
    (map (fun r => VStr (attr_pos r)) docs)
  = map (fun r =>
           VStr (if bool_decide
                      (resolved_token r
                         ∈ ["["; "]"; "<"; ">"; "/"; en_dash; "%"]%string)
                 then PUNCT else attr_pos r)) docs.
Proof.
  cbv zeta. unfold isin.
  rewrite !length_map, replicate_map_const, !map_map, mask_assign_map.
  apply map_ext. intros r.
  change punct_symbols
    with (map VStr ["["; "]"; "<"; ">"; "/"; en_dash; "%"]%string).
  rewrite existsb_py_eq_str. by destruct (bool_decide _).
Qed.

Lemma ent_idx_column (docs : list attr) (g : nat -> Z) :
  let io := map (fun r => VStr (attr_ent_iob r)) docs in
  mask_assign (series_eq io (VStr "O"))
    (replicate (length (series_eq io (VStr "O"))) (VInt 0))
    (imap (fun i _ => VInt (g i)) docs)
  = imap (fun i r =>
            VInt (if String.eqb (attr_ent_iob r) "O" then 0 else g i))
      docs.
Proof.
  cbv zeta. unfold series_eq.
  rewrite !length_map, replicate_map_const, !map_map, mask_assign_imap.
  apply imap_ext. intros i r Hr. cbn [py_eq].
  by destruct (String.eqb _ _).
Qed.

(** [df_from_docs] never raises, and returns [assembled]. *)
Lemma df_from_docs_eq (PUNCT : string) (docs : list attr) :
  df_from_docs PUNCT docs = Ok (assembled PUNCT docs).
Proof.
  unfold df_from_docs, DataFrame_of_docs.
  rewrite df_from_docs_columns.
  rewrite (cumsum_map (fun r => VInt (attr_sent_start r)) attr_sent_start)
    by done.
  cbn [mbind result_bind].
  replace (map VBool (series_eq _ (VStr "B")))
    with (map (fun r => VBool (String.eqb (attr_ent_iob r) "B")) docs)
    by (unfold series_eq; by rewrite !map_map).
  rewrite (cumsum_map _ begin_flag).
  2:{ intros r. unfold begin_flag. cbn [as_num].
      by destruct (String.eqb _ _). }
  cbn [mbind result_bind]. unfold assembled_columns, assembled. cbv zeta.
  rewrite (token_column docs _ (length_range (length docs))).
  pose proof (pos_column PUNCT docs) as Hpos.
  pose proof (ent_idx_column docs
                (fun i => sumZ (take (S i) (map begin_flag docs)))) as Hent.
  cbv zeta in Hpos, Hent. by rewrite Hpos, Hent.
Qed.

(** ** The resolved token and the part-of-speech tag *)

(** C1.  In every assembled token table the resolved token of a row is the
    dictionary (IWNLP) lemma of its record when that lemma is present and
    not null, and the pipeline-derived lemma otherwise; the assembly never
    raises. *)
Theorem resolved_token_prefers_dictionary_lemma (PUNCT : string)
  (docs : list attr) :
  exists df : DataFrame,
    df_from_docs PUNCT docs = Ok df /\
    get_col df TOKEN
    = Ok (map (fun r =>
                 match attr_iwnlp r with
                 | Some lemma => VStr lemma
                 | None => VStr (attr_lemma r)
                 end) docs).
Proof.
  exists (assembled PUNCT docs). split; [apply df_from_docs_eq|].
  unfold get_col, assembled. cbn [df_columns assoc]. simpl. f_equal.
  apply map_ext. intros r. unfold resolved_token. by destruct (attr_iwnlp r).
Qed.

(** C5.  In every assembled token table, a row whose resolved token is one
    of the seven symbols [ ] < > / en-dash % carries the punctuation tag
    [PUNCT], whatever tag the pipeline gave; every other row keeps the tag
    of the pipeline. *)
Theorem punctuation_symbols_get_punct_tag (PUNCT : string)
  (docs : list attr) :
  exists (df : DataFrame) (tokens : list string),
    df_from_docs PUNCT docs = Ok df /\
    get_col df TOKEN = Ok (map VStr tokens) /\
    length tokens = length docs /\
    get_col df POS
    = Ok (zip_with
            (fun token r =>
               VStr (if bool_decide
                          (token ∈ ["["; "]"; "<"; ">"; "/"; en_dash; "%"]%string)
                     then PUNCT else attr_pos r))
            tokens docs).
Proof.
  exists (assembled PUNCT docs), (map resolved_token docs).
  split; [apply df_from_docs_eq|].
  split; [by rewrite map_map|].
  split; [apply length_map|].
  unfold get_col, assembled. cbn [df_columns assoc]. simpl. f_equal.
  change (map resolved_token docs) with (resolved_token <$> docs).
  by rewrite zip_with_fmap_l, zip_with_diag.
Qed.

(** * Per-document annotation *)

(** ** The noun-phrase dictionary *)

Lemma mark_chunk_notin (idx : Z) (np : gmap Z Z) (chunk : Span) (i : Z) :
  i ∉ Token.i <$> chunk -> mark_chunk idx np chunk !! i = np !! i.
Proof.
  revert np. induction chunk as [|t chunk IH]; intros np Hi; [done|].
  rewrite fmap_cons, not_elem_of_cons in Hi. destruct Hi as [Hne Hi].
  unfold mark_chunk in *. simpl. rewrite IH by done.
  by apply lookup_insert_ne.
Qed.

Lemma mark_chunk_in (idx : Z) (np : gmap Z Z) (chunk : Span) (i : Z) :
  i ∈ Token.i <$> chunk -> mark_chunk idx np chunk !! i = Some idx.
Proof.
  revert np. induction chunk as [|t chunk IH]; intros np Hi.
  { by apply elem_of_nil in Hi. }
  unfold mark_chunk in *. simpl.
  destruct (decide (i ∈ Token.i <$> chunk)) as [Hin|Hout].
  - by apply IH.
  - rewrite fmap_cons, elem_of_cons in Hi. destruct Hi as [->|Hin]; [|done].
    fold (mark_chunk idx (<[Token.i t:=idx]> np) chunk).
    rewrite mark_chunk_notin by done. apply lookup_insert_eq.
Qed.

Lemma chunk_fold_counter (c : Z) (np : gmap Z Z) (chunks : list Span) :
  (foldl chunk_step (c, np) chunks).1 = c + Z.of_nat (length chunks).
Proof.
  revert c np. induction chunks as [|ch chunks IH]; intros c np; simpl.
  - lia.
  - rewrite IH. lia.
Qed.

Lemma chunk_fold_outside (c : Z) (np : gmap Z Z) (chunks : list Span)
  (i : Z) :
  (forall ch, ch ∈ chunks -> i ∉ Token.i <$> ch) ->
  (foldl chunk_step (c, np) chunks).2 !! i = np !! i.
Proof.
  revert c np. induction chunks as [|ch chunks IH]; intros c np Hout; [done|].
  simpl. rewrite IH.
  - apply mark_chunk_notin, Hout. left.
  - intros ch' Hch'. apply Hout. by right.
Qed.

(** The last chunk that holds a token index decides its entry. *)
Lemma chunk_fold_last (c : Z) (np : gmap Z Z) (chunks : list Span)
  (k : nat) (ch : Span) (i : Z) :
  chunks !! k = Some ch ->
  i ∈ Token.i <$> ch ->
  (forall k' ch', (k < k')%nat -> chunks !! k' = Some ch' ->
                  i ∉ Token.i <$> ch') ->
  (foldl chunk_step (c, np) chunks).2 !! i = Some (c + Z.of_nat k + 1).
Proof.
  revert c np k.
  induction chunks as [|ch0 chunks IH]; intros c np k Hk Hin Hlast.
  { done. }
  destruct k as [|k]; simpl in *.
  - injection Hk as ->. rewrite chunk_fold_outside.
    + rewrite mark_chunk_in by done. f_equal. lia.
    + intros ch' Hch'. apply list_elem_of_lookup in Hch' as [k' Hk'].
      apply (Hlast (S k')); [lia | done].
  - rewrite (IH _ _ k); [f_equal; lia | done | done |].
    intros k' ch' Hlt Hk'. apply (Hlast (S k')); [lia | done].
Qed.

(** ** The loop over the documents *)

Lemma process_loop_cons (nlp : string -> Doc) (kv : list value)
  (rows : list (list value)) (chunk_idx : Z) (docs : list attr) :
  process_loop nlp (kv :: rows) chunk_idx docs
  = ('(key, doc) ← row_doc nlp kv;
     let st := mark_chunks chunk_idx (noun_chunks doc) in
     process_loop nlp rows st.1
       (docs ++ map (token_attr key st.2) (doc_tokens doc))).
Proof.
  cbn [process_loop]. unfold row_doc.
  destruct (unpack4 kv) as [[[[key title] descr] text]|e]; [|done].
  cbn [mbind result_bind].
  destruct (str_join _ _) as [joined|e]; [|done].
  cbn [mbind result_bind].
  by destruct (mark_chunks chunk_idx (noun_chunks (nlp joined))).
Qed.

Lemma process_loop_eq (nlp : string -> Doc) (rows : list (list value))
  (chunk_idx : Z) (docs : list attr) :
  process_loop nlp rows chunk_idx docs
  = (batch ← mapM (row_doc nlp) rows;
     Ok (docs ++ batch_attrs chunk_idx batch)).
Proof.
  revert chunk_idx docs.
  induction rows as [|kv rows IH]; intros chunk_idx docs.
  { simpl. by rewrite app_nil_r. }
  rewrite process_loop_cons. cbn [mapM].
  destruct (row_doc nlp kv) as [[key doc]|e]; [|done].
  cbn [mbind result_bind]. rewrite IH.
  destruct (mapM (row_doc nlp) rows) as [batch|e]; [|done].
  cbn [mbind result_bind mret result_ret batch_attrs].
  by rewrite app_assoc.
Qed.

Lemma token_records_eq (nlp : string -> Doc) (text_df : DataFrame) :
  token_records nlp text_df
  = (batch ← batch_docs nlp text_df; Ok (batch_attrs 0 batch)).
Proof. unfold token_records. by rewrite process_loop_eq. Qed.

(** The records of a run are those of its batch. *)
Lemma token_records_inv (nlp : string -> Doc) (text_df : DataFrame)
  (docs : list attr) :
  token_records nlp text_df = Ok docs ->
  exists batch,
    batch_docs nlp text_df = Ok batch /\ docs = batch_attrs 0 batch.
Proof.
  rewrite token_records_eq.
  destruct (batch_docs nlp text_df) as [batch|e]; [|done].
  cbn [mbind result_bind]. intros [= <-]. by exists batch.
Qed.

(** A tuple of a key and three cells that are strings or null never makes
    an iteration raise. *)
Lemma str_join_text_cells (items : list value) :
  Forall text_cell items ->
  exists joined, str_join newline (List.filter truthy items) = Ok joined.
Proof.
  induction 1 as [|v items Hv _ [j IH]]; [by eexists|].
  destruct Hv as [->|[s ->]]; simpl; [by eexists|].
  destruct (negb _); [|by eexists].
  cbn [str_join]. rewrite IH.
  destruct (List.filter truthy items); by eexists.
Qed.

Lemma row_doc_ok (nlp : string -> Doc) (key title descr text : value) :
  Forall text_cell [title; descr; text] ->
  exists joined, row_doc nlp [key; title; descr; text] = Ok (key, nlp joined).
Proof.
  intros H. unfold row_doc. cbn [unpack4 mbind result_bind].
  destruct (str_join_text_cells _ H) as [j ->]. by eexists.
Qed.

(** Over tuples of a key and three text cells the loop never raises. *)
Lemma process_loop_ok (nlp : string -> Doc) (rows : list (list value)) :
  Forall (fun kv => exists key title descr text,
                      kv = [key; title; descr; text] /\
                      Forall text_cell [title; descr; text]) rows ->
  exists docs, process_loop nlp rows 0 [] = Ok docs.
Proof.
  intros Hrows. rewrite process_loop_eq.
  assert (exists batch, mapM (row_doc nlp) rows = Ok batch) as [batch ->].
  { induction Hrows as [|kv rows (key & t & d & x & -> & Hcells) _ [b IH]].
    - by eexists.
    - cbn [mapM]. destruct (row_doc_ok nlp key t d x Hcells) as [j ->].
      rewrite IH. by eexists. }
  by eexists.
Qed.

Lemma text_cell_hd (col : list value) :
  Forall text_cell col -> text_cell (hd VNone col).
Proof. intros [|v rest Hv _]; [by left | done]. Qed.

Lemma text_cell_tl (col : list value) :
  Forall text_cell col -> Forall text_cell (tl col).
Proof. intros [|v rest _ Hrest]; [constructor | done]. Qed.

(** On a table of three columns of text cells, as [read] returns it when
    the source holds text, the annotation of a batch never raises. *)
Lemma token_records_ok (nlp : string -> Doc) (idx : list value)
  (c1 c2 c3 : column) (t d x : list value) :
  Forall text_cell t -> Forall text_cell d -> Forall text_cell x ->
  exists docs,
    token_records nlp (mkDataFrame idx [(c1, t); (c2, d); (c3, x)]) = Ok docs.
Proof.
  intros Ht Hd Hx. apply process_loop_ok.
  unfold itertuples. cbn [df_index df_columns map snd].
  revert t d x Ht Hd Hx.
  induction idx as [|k idx IH]; intros t d x Ht Hd Hx; simpl.
  { constructor. }
  constructor.
  - exists k, (hd VNone t), (hd VNone d), (hd VNone x). split; [done|].
    repeat apply Forall_cons_2; [by apply text_cell_hd.. | constructor].
  - apply IH; by apply text_cell_tl.
Qed.

(** Every record of a batch is the record of its token, built with the
    dictionary of the token's document. *)
Lemma batch_attrs_tokens (c : Z) (batch : list (value * Doc)) :
  Forall2
    (fun r '(key, doc, before, t) =>
       r = token_attr key (mark_chunks before (noun_chunks doc)).2 t)
    (batch_attrs c batch) (batch_tokens c batch).
Proof.
  revert c. induction batch as [|[key doc] batch IH]; intros c; simpl.
  { constructor. }
  apply Forall2_app.
  - apply Forall2_fmap, Forall_Forall2_diag, Forall_forall. by intros t _.
  - unfold mark_chunks at 2. rewrite chunk_fold_counter. apply IH.
Qed.

(** The number attached to a token counts the chunks emitted before its
    document: chunk [k] of the document is chunk [before + k] of the
    batch. *)
Lemma batch_tokens_chunks (n : nat) (batch : list (value * Doc)) :
  Forall
    (fun '(key, doc, before, t) =>
       exists m : nat,
         before = Z.of_nat m /\ (n <= m)%nat /\
         forall k c, noun_chunks doc !! k = Some c ->
                     batch_chunks batch !! (m - n + k)%nat = Some c)
    (batch_tokens (Z.of_nat n) batch).
Proof.
  revert n. induction batch as [|[key doc] batch IH]; intros n; simpl.
  { constructor. }
  apply Forall_app. split.
  - apply Forall_fmap, Forall_forall. intros t _. simpl.
    exists n. split; [done|]. split; [lia|]. intros k c Hk.
    unfold batch_chunks. simpl. rewrite lookup_app_l.
    + by replace (n - n + k)%nat with k by lia.
    + apply lookup_lt_Some in Hk. lia.
  - replace (Z.of_nat n + Z.of_nat (length (noun_chunks doc)))
      with (Z.of_nat (n + length (noun_chunks doc))) by lia.
    eapply Forall_impl; [apply IH|].
    intros [[[key' doc'] before] t] (m & -> & Hle & Hm).
    exists m. split; [done|]. split; [lia|]. intros k c Hk.
    unfold batch_chunks. simpl. rewrite lookup_app_r by lia.
    rewrite <- (Hm k c Hk). f_equal. lia.
Qed.

Lemma Forall2_and_r {A B} (P : A -> B -> Prop) (Q : B -> Prop)
  (l : list A) (k : list B) :
  Forall2 P l k -> Forall Q k -> Forall2 (fun a b => P a b /\ Q b) l k.
Proof.
  induction 1 as [|a b l k Hab _ IH]; intros HQ; constructor.
  - split; [done|]. by eapply Forall_inv.
  - apply IH. by eapply Forall_inv_tail.
Qed.

(** ** The sentence-start flag *)

Lemma token_attr_sent_start (key : value) (np : gmap Z Z) (t : Token.t) :
  attr_sent_start (token_attr key np t)
  = if bool_decide (Token.is_sent_start t = Some true \/ Token.i t = 0)
    then 1 else 0.
Proof.
  unfold token_attr. cbn [attr_sent_start].
  destruct (Token.is_sent_start t) as [[]|]; cbn [default orb].
  - rewrite bool_decide_eq_true_2; [done | by left].
  - destruct (Z.eqb_spec (Token.i t) 0) as [H0|H0].
    + rewrite bool_decide_eq_true_2; [done | by right].
    + rewrite bool_decide_eq_false_2; [done|]. by intros [|].
  - destruct (Z.eqb_spec (Token.i t) 0) as [H0|H0].
    + rewrite bool_decide_eq_true_2; [done | by right].
    + rewrite bool_decide_eq_false_2; [done|]. by intros [|].
Qed.

(** C6.  For every document of a batch and every token emitted for it, the
    sentence-start flag of the token's record is 1 if the pipeline marked
    the token as a sentence start or the token has index 0, and 0
    otherwise; the record carries the key of the document and the index of
    the token. *)
Theorem sentence_start_flag_of_token (nlp : string -> Doc)
  (text_df : DataFrame) (docs : list attr) :
  token_records nlp text_df = Ok docs ->
  exists batch : list (value * Doc),
    batch_docs nlp text_df = Ok batch /\
    Forall2
      (fun r '(key, doc, before, t) =>
         attr_hash r = key /\
         attr_tok_idx r = Token.i t /\
         attr_sent_start r
         = if bool_decide (Token.is_sent_start t = Some true \/ Token.i t = 0)
           then 1 else 0)
      docs (batch_tokens 0 batch).
Proof.
  intros Hdocs.
  destruct (token_records_inv _ _ _ Hdocs) as (batch & Hbatch & ->).
  exists batch. split; [done|].
  eapply Forall2_impl; [apply batch_attrs_tokens|].
  intros r [[[key doc] before] t] ->.
  split; [done|]. split; [done|]. apply token_attr_sent_start.
Qed.

Lemma sentence_start_flag_of_token_witness :
  token_records sample_nlp sample_text_df = Ok sample_records /\
  exists batch : list (value * Doc),
    batch_docs sample_nlp sample_text_df = Ok batch /\
    Forall2
      (fun r '(key, doc, before, t) =>
         attr_hash r = key /\
         attr_tok_idx r = Token.i t /\
         attr_sent_start r
         = if bool_decide (Token.is_sent_start t = Some true \/ Token.i t = 0)
           then 1 else 0)
      sample_records (batch_tokens 0 batch).
Proof.
  split; [reflexivity|].
  apply (sentence_start_flag_of_token sample_nlp sample_text_df
           sample_records).
  reflexivity.
Defined.

(** ** The noun-phrase group id *)

Lemma token_attr_noun_phrase (key : value) (np : gmap Z Z) (t : Token.t) :
  attr_noun_phrase (token_attr key np t) = default 0 (np !! Token.i t).
Proof. reflexivity. Qed.

(** C4, as amended.  For every processed batch and every token: the
    noun-phrase id of its record is 0 when its index lies in no chunk of
    its document, and otherwise the id of the last emitted chunk of its
    document that holds its index; the id of a chunk is one more than the
    number of chunks emitted before it in the whole batch, the counter
    never being reset between documents; so when the chunks of a document
    do not overlap, all tokens of a chunk carry the id of that chunk. *)
Theorem noun_phrase_id_of_token (nlp : string -> Doc) (text_df : DataFrame)
  (docs : list attr) :
  token_records nlp text_df = Ok docs ->
  exists batch : list (value * Doc),
    batch_docs nlp text_df = Ok batch /\
    Forall2
      (fun r '(key, doc, before, t) =>
         attr_tok_idx r = Token.i t /\
         ((forall c, c ∈ noun_chunks doc -> Token.i t ∉ Token.i <$> c) ->
          attr_noun_phrase r = 0) /\
         (forall k c,
            noun_chunks doc !! k = Some c ->
            Token.i t ∈ Token.i <$> c ->
            (forall k' c', (k < k')%nat -> noun_chunks doc !! k' = Some c' ->
                           Token.i t ∉ Token.i <$> c') ->
            attr_noun_phrase r = before + Z.of_nat k + 1) /\
         (disjoint_chunks doc ->
          forall k c,
            noun_chunks doc !! k = Some c ->
            Token.i t ∈ Token.i <$> c ->
            attr_noun_phrase r = before + Z.of_nat k + 1) /\
         0 <= before /\
         (forall k c,
            noun_chunks doc !! k = Some c ->
            batch_chunks batch !! (Z.to_nat before + k)%nat = Some c))
      docs (batch_tokens 0 batch).
Proof.
  intros Hdocs.
  destruct (token_records_inv _ _ _ Hdocs) as (batch & Hbatch & ->).
  exists batch. split; [done|].
  eapply Forall2_impl.
  { apply Forall2_and_r;
      [apply batch_attrs_tokens | apply (batch_tokens_chunks 0 batch)]. }
  intros r [[[key doc] before] t] [-> (m & -> & _ & Hm)].
  assert (Hlast : forall k c,
             noun_chunks doc !! k = Some c ->
             Token.i t ∈ Token.i <$> c ->
             (forall k' c', (k < k')%nat -> noun_chunks doc !! k' = Some c' ->
                            Token.i t ∉ Token.i <$> c') ->
             attr_noun_phrase
               (token_attr key (mark_chunks (Z.of_nat m) (noun_chunks doc)).2 t)
             = Z.of_nat m + Z.of_nat k + 1).
  { intros k c Hk Hin Hlater. rewrite token_attr_noun_phrase.
    unfold mark_chunks. by rewrite (chunk_fold_last _ _ _ k c). }
  split; [done|]. split; [|split; [done|split; [|split; [lia|]]]].
  - intros Hout. rewrite token_attr_noun_phrase. unfold mark_chunks.
    by rewrite chunk_fold_outside.
  - intros Hdisj k c Hk Hin. apply (Hlast k c Hk Hin).
    intros k' c' Hlt Hk'. apply (Hdisj k k' c c'); [lia | done..].
  - intros k c Hk. rewrite Nat2Z.id.
    rewrite <- (Hm k c Hk). f_equal. lia.
Qed.

Lemma noun_phrase_id_of_token_witness :
  token_records sample_nlp sample_text_df = Ok sample_records /\
  exists batch : list (value * Doc),
    batch_docs sample_nlp sample_text_df = Ok batch /\
    Forall2
      (fun r '(key, doc, before, t) =>
         attr_tok_idx r = Token.i t /\
         ((forall c, c ∈ noun_chunks doc -> Token.i t ∉ Token.i <$> c) ->
          attr_noun_phrase r = 0) /\
         (forall k c,
            noun_chunks doc !! k = Some c ->
            Token.i t ∈ Token.i <$> c ->
            (forall k' c', (k < k')%nat -> noun_chunks doc !! k' = Some c' ->
                           Token.i t ∉ Token.i <$> c') ->
            attr_noun_phrase r = before + Z.of_nat k + 1) /\
         (disjoint_chunks doc ->
          forall k c,
            noun_chunks doc !! k = Some c ->
            Token.i t ∈ Token.i <$> c ->
            attr_noun_phrase r = before + Z.of_nat k + 1) /\
         0 <= before /\
         (forall k c,
            noun_chunks doc !! k = Some c ->
            batch_chunks batch !! (Z.to_nat before + k)%nat = Some c))
      sample_records (batch_tokens 0 batch).
Proof.
  split; [reflexivity|].
  apply (noun_phrase_id_of_token sample_nlp sample_text_df sample_records).
  reflexivity.
Defined.

(** C4 fails as stated: the two chunks of [overlap_doc] share the token
    "neues", which is entered under the second chunk, so the two tokens of
    the first chunk carry the ids 1 and 2. *)
Lemma overlapping_chunks_split_ids :
  exists docs : list attr,
    token_records overlap_nlp overlap_text_df = Ok docs /\
    ~ chunk_tokens_share_id overlap_doc docs.
Proof.
  eexists. split; [reflexivity|].
  intros Hshare.
  destruct (Hshare [tok_peters; tok_neues]) as (id & _ & Hid).
  { left. }
  pose proof (Hid 0%nat tok_peters _ eq_refl eq_refl) as H0.
  pose proof (Hid 1%nat tok_neues _ eq_refl eq_refl) as H1.
  cbn in H0, H1.
  assert (E0 : 1 = id) by (apply H0; left).
  assert (E1 : 2 = id) by (apply H1; right; left).
  lia.
Qed.

(** * The two running indices of the assembled table *)

Lemma sumZ_take_S (l : list Z) (i : nat) (x : Z) :
  l !! i = Some x -> sumZ (take (S i) l) = sumZ (take i l) + x.
Proof.
  intros Hi. rewrite (take_S_r _ _ _ Hi), sumZ_app. simpl. lia.
Qed.

Lemma sumZ_nonneg (l : list Z) : Forall (fun x => 0 <= x) l -> 0 <= sumZ l.
Proof. induction 1 as [|x l Hx _ IH]; simpl; lia. Qed.

Lemma sumZ_take_mono (l : list Z) (i j : nat) :
  Forall (fun x => 0 <= x) l -> (i <= j)%nat ->
  sumZ (take i l) <= sumZ (take j l).
Proof.
  intros Hl Hij.
  rewrite <- (take_drop i (take j l)), sumZ_app, take_take.
  replace (i `min` j)%nat with i by lia.
  assert (0 <= sumZ (drop i (take j l))); [|lia].
  by apply sumZ_nonneg, Forall_drop, Forall_take.
Qed.

(** Row [i] of a column of prefix sums. *)
Lemma prefix_sum_lookup {A} (g : A -> Z) (docs : list A) (i : nat) (r : A) :
  docs !! i = Some r ->
  imap (fun i _ => sumZ (take (S i) (map g docs))) docs !! i
  = Some (sumZ (take (S i) (map g docs))).
Proof. intros Hi. by rewrite list_lookup_imap, Hi. Qed.

(** Every record of a batch has a sentence-start flag of 0 or 1. *)
Lemma batch_attrs_flags (c : Z) (batch : list (value * Doc)) :
  Forall (fun r => attr_sent_start r = 0 \/ attr_sent_start r = 1)
    (batch_attrs c batch).
Proof.
  revert c. induction batch as [|[key doc] batch IH]; intros c; simpl.
  { constructor. }
  apply Forall_app. split; [|apply IH].
  apply Forall_fmap, Forall_forall. intros t _. unfold compose.
  rewrite token_attr_sent_start. destruct (bool_decide _); auto.
Qed.

(** C2.  In the token table assembled for a batch the sentence index of
    row [i] is the sum of the sentence-start flags of the rows 0 to [i] of
    the whole batch; the flags are 0 or 1, so from one row to the next the
    index goes up by exactly one where the flag is 1 and stays where it is
    0, and it never decreases down the table. *)
Theorem sentence_index_is_running_sum (PUNCT : string) (nlp : string -> Doc)
  (text_df : DataFrame) (docs : list attr) :
  token_records nlp text_df = Ok docs ->
  exists (df : DataFrame) (idx : list Z),
    process_docs PUNCT nlp text_df = Ok df /\
    get_col df SENT_IDX = Ok (map VInt idx) /\
    length idx = length docs /\
    (forall i r,
       docs !! i = Some r ->
       idx !! i = Some (sumZ (take (S i) (map attr_sent_start docs)))) /\
    Forall (fun r => attr_sent_start r = 0 \/ attr_sent_start r = 1) docs /\
    (forall r, docs !! 0%nat = Some r -> idx !! 0%nat = Some (attr_sent_start r)) /\
    (forall i r a,
       docs !! S i = Some r -> idx !! i = Some a ->
       idx !! S i = Some (a + attr_sent_start r)) /\
    (forall i j a b,
       (i <= j)%nat -> idx !! i = Some a -> idx !! j = Some b -> a <= b).
Proof.
  intros Hdocs.
  set (flags := map attr_sent_start docs).
  set (idx := imap (fun i (_ : attr) => sumZ (take (S i) flags)) docs).
  assert (Hflags : Forall (fun r => attr_sent_start r = 0 \/ attr_sent_start r = 1)
                     docs).
  { destruct (token_records_inv _ _ _ Hdocs) as (batch & _ & ->).
    apply batch_attrs_flags. }
  assert (Hnonneg : Forall (fun x => 0 <= x) flags).
  { apply Forall_fmap. eapply Forall_impl; [exact Hflags|].
    intros r [H|H]; simpl; lia. }
  assert (Hidx : forall i a,
             idx !! i = Some a ->
             a = sumZ (take (S i) flags) /\ is_Some (docs !! i)).
  { intros i a. unfold idx. rewrite list_lookup_imap.
    destruct (docs !! i); [|done]. intros [= <-]. eauto. }
  exists (assembled PUNCT docs), idx.
  split.
  { unfold process_docs. rewrite Hdocs. apply df_from_docs_eq. }
  split.
  { unfold get_col, assembled. cbn [df_columns assoc]. simpl. f_equal.
    unfold idx. change map with (@fmap list _). by rewrite fmap_imap. }
  split; [apply length_imap|].
  split; [intros i r Hi; by apply (prefix_sum_lookup _ _ _ r)|].
  split; [done|].
  split.
  { intros r Hr. unfold idx, flags. rewrite (prefix_sum_lookup _ _ _ _ Hr).
    f_equal. rewrite (sumZ_take_S _ 0 (attr_sent_start r)).
    - simpl. lia.
    - by rewrite list_lookup_fmap, Hr. }
  split.
  { intros i r a Hr Ha. destruct (Hidx _ _ Ha) as [-> _].
    unfold idx, flags. rewrite (prefix_sum_lookup _ _ _ _ Hr). f_equal.
    apply sumZ_take_S. by rewrite list_lookup_fmap, Hr. }
  intros i j a b Hij Ha Hb.
  destruct (Hidx _ _ Ha) as [-> _]. destruct (Hidx _ _ Hb) as [-> _].
  apply sumZ_take_mono; [done | lia].
Qed.

Lemma sentence_index_is_running_sum_witness :
  token_records sample_nlp sample_text_df = Ok sample_records /\
  exists df : DataFrame,
    process_docs "PUNCT" sample_nlp sample_text_df = Ok df /\
    get_col df SENT_IDX = Ok (map VInt [1; 1; 2; 2]).
Proof.
  split; [reflexivity|].
  destruct (sentence_index_is_running_sum "PUNCT" sample_nlp sample_text_df
              sample_records eq_refl)
    as (df & idx & Hdf & Hcol & Hlen & Hval & _).
  exists df. split; [exact Hdf|]. rewrite Hcol. do 2 f_equal.
  destruct idx as [|a [|b [|c [|d [|e idx]]]]]; try discriminate Hlen.
  pose proof (Hval 0%nat _ eq_refl) as H0.
  pose proof (Hval 1%nat _ eq_refl) as H1.
  pose proof (Hval 2%nat _ eq_refl) as H2.
  pose proof (Hval 3%nat _ eq_refl) as H3.
  vm_compute in H0, H1, H2, H3. congruence.
Defined.

Lemma begin_flag_range (r : attr) : 0 <= begin_flag r <= 1.
Proof. unfold begin_flag. destruct (String.eqb _ _); lia. Qed.

Lemma begin_flag_B (r : attr) :
  begin_flag r = if bool_decide (attr_ent_iob r = "B"%string) then 1 else 0.
Proof.
  unfold begin_flag. destruct (String.eqb_spec (attr_ent_iob r) "B").
  - by rewrite bool_decide_eq_true_2.
  - by rewrite bool_decide_eq_false_2.
Qed.

(** C3, as amended.  In every assembled token table the entity index is 0
    on every row whose entity tag is Outside; on every other row it is the
    number of Begin tags on the rows 0 to that row of the whole table.
    That count goes up by one at every Begin row and stays elsewhere; so
    the index of a Begin row is greater than that of every row above it,
    and a row that is not Outside has a nonzero index as soon as a Begin
    row stands at or above it. *)
Theorem entity_index_counts_begin_tags (PUNCT : string) (docs : list attr) :
  exists (df : DataFrame) (idx : list Z),
    df_from_docs PUNCT docs = Ok df /\
    get_col df ENT_IDX = Ok (map VInt idx) /\
    length idx = length docs /\
    (forall i r,
       docs !! i = Some r -> attr_ent_iob r = "O"%string ->
       idx !! i = Some 0) /\
    (forall i r,
       docs !! i = Some r -> attr_ent_iob r ≠ "O"%string ->
       idx !! i = Some (sumZ (map begin_flag (take (S i) docs)))) /\
    (forall i r,
       docs !! i = Some r ->
       sumZ (map begin_flag (take (S i) docs))
       = sumZ (map begin_flag (take i docs))
         + if bool_decide (attr_ent_iob r = "B"%string) then 1 else 0) /\
    (forall i j r a b,
       docs !! j = Some r -> attr_ent_iob r = "B"%string -> (i < j)%nat ->
       idx !! i = Some a -> idx !! j = Some b -> a < b) /\
    (forall i j r rb a,
       docs !! i = Some r -> attr_ent_iob r ≠ "O"%string ->
       (j <= i)%nat -> docs !! j = Some rb -> attr_ent_iob rb = "B"%string ->
       idx !! i = Some a -> 0 < a).
Proof.
  set (count := fun i : nat => sumZ (map begin_flag (take i docs))).
  set (idx := imap (fun i r =>
                      if String.eqb (attr_ent_iob r) "O" then 0
                      else count (S i)) docs).
  assert (Hnonneg : Forall (fun x => 0 <= x) (map begin_flag docs)).
  { apply Forall_fmap, Forall_forall. intros r _.
    apply (begin_flag_range r). }
  assert (Hcount : forall i, count i = sumZ (take i (map begin_flag docs))).
  { intros i. unfold count. change map with (@fmap list _).
    by rewrite fmap_take. }
  assert (Hstep : forall i r,
             docs !! i = Some r -> count (S i) = count i + begin_flag r).
  { intros i r Hr. rewrite !Hcount. apply sumZ_take_S.
    by rewrite list_lookup_fmap, Hr. }
  assert (Hmono : forall i j, (i <= j)%nat -> count i <= count j).
  { intros i j Hij. rewrite !Hcount. by apply sumZ_take_mono. }
  assert (Hidx : forall i r,
             docs !! i = Some r ->
             idx !! i = Some (if String.eqb (attr_ent_iob r) "O" then 0
                              else count (S i))).
  { intros i r Hr. unfold idx. by rewrite list_lookup_imap, Hr. }
  assert (Hle : forall i a, idx !! i = Some a -> 0 <= a <= count (S i)).
  { intros i a. unfold idx. rewrite list_lookup_imap.
    destruct (docs !! i) as [r|]; [|done]. intros [= <-].
    pose proof (Hmono 0%nat (S i)) as H0. unfold count at 1 in H0.
    simpl in H0. destruct (String.eqb _ _); lia. }
  exists (assembled PUNCT docs), idx.
  split; [apply df_from_docs_eq|].
  split.
  { unfold get_col, assembled. cbn [df_columns assoc]. simpl. f_equal.
    unfold idx, count. change map with (@fmap list _).
    rewrite fmap_imap. apply imap_ext. intros i r _. unfold compose.
    by rewrite fmap_take. }
  split; [apply length_imap|].
  split.
  { intros i r Hr HO. rewrite (Hidx i r Hr), HO. done. }
  split.
  { intros i r Hr HO. rewrite (Hidx i r Hr).
    by destruct (String.eqb_spec (attr_ent_iob r) "O"). }
  split.
  { intros i r Hr. rewrite <- begin_flag_B. by apply Hstep. }
  split.
  { intros i j r a b Hr HB Hij Ha Hb.
    rewrite (Hidx j r Hr), HB in Hb. simpl in Hb. injection Hb as <-.
    pose proof (Hle i a Ha) as [_ Ha'].
    pose proof (Hmono (S i) j ltac:(lia)).
    rewrite (Hstep j r Hr). unfold begin_flag. rewrite HB. simpl. lia. }
  intros i j r rb a Hr HO Hji Hrb HB Ha.
  rewrite (Hidx i r Hr) in Ha.
  destruct (String.eqb_spec (attr_ent_iob r) "O"); [done|].
  injection Ha as <-.
  pose proof (Hmono (S j) (S i) ltac:(lia)).
  pose proof (Hmono 0%nat j ltac:(lia)) as H0. unfold count at 1 in H0.
  simpl in H0.
  rewrite (Hstep j rb Hrb) in *. unfold begin_flag in *. rewrite HB in *.
  simpl in *. lia.
Qed.

Lemma entity_index_counts_begin_tags_witness :
  exists df : DataFrame,
    df_from_docs "PUNCT" sample_records = Ok df /\
    get_col df ENT_IDX = Ok (map VInt [1; 1; 0; 0]).
Proof.
  destruct (entity_index_counts_begin_tags "PUNCT" sample_records)
    as (df & idx & Hdf & Hcol & Hlen & HO & HnO & _).
  exists df. split; [exact Hdf|]. rewrite Hcol. do 2 f_equal.
  destruct idx as [|a [|b [|c [|d [|e idx]]]]]; try discriminate Hlen.
  pose proof (HnO 0%nat _ eq_refl ltac:(discriminate)) as H0.
  pose proof (HnO 1%nat _ eq_refl ltac:(discriminate)) as H1.
  pose proof (HO 2%nat _ eq_refl eq_refl) as H2.
  pose proof (HO 3%nat _ eq_refl eq_refl) as H3.
  vm_compute in H0, H1, H2, H3. congruence.
Defined.

(** C3 fails as stated: a table whose first row is tagged Inside has the
    entity index 0 on that row, which is not an Outside row. *)
Lemma entity_index_zero_on_inside_row :
  exists (docs : list attr) (df : DataFrame) (ent_idx : list value),
    token_records inside_nlp overlap_text_df = Ok docs /\
    process_docs "PUNCT" inside_nlp overlap_text_df = Ok df /\
    get_col df ENT_IDX = Ok ent_idx /\
    ~ zero_exactly_outside docs ent_idx.
Proof.
  eexists _, _, _. split; [reflexivity|]. split; [reflexivity|].
  split; [reflexivity|].
  intros H. destruct (H 0%nat _ eq_refl) as [H0 _].
  specialize (H0 eq_refl). discriminate H0.
Qed.

(** * Loading and storing *)

(** ** Slices and projections *)


(** For offsets that are not negative, [l[start:stop]] holds the elements
    at the offsets [start], ..., [stop - 1] that exist. *)
Lemma py_slice_range {A} (start stop : Z) (l : list A) :
  0 <= start -> 0 <= stop ->
  py_slice start (Some stop) l
  = take (Z.to_nat (stop - start)) (drop (Z.to_nat start) l).
Proof.
  intros Hstart Hstop. unfold py_slice, clip.
  destruct (Z.ltb_spec start 0); [lia|].
  destruct (Z.ltb_spec stop 0); [lia|].
  set (n := Z.of_nat (length l)).
  destruct (Z.le_gt_cases n start) as [Hbig|Hsmall].
  - rewrite (drop_ge l (Z.to_nat start)) by lia.
    rewrite (drop_ge l (Z.to_nat (Z.min start n))) by lia.
    by rewrite !take_nil.
  - replace (Z.min start n) with start by lia.
    destruct (Z.le_gt_cases stop n) as [Hin|Hout].
    + by replace (Z.min stop n) with stop by lia.
    + replace (Z.min stop n) with n by lia.
      rewrite !take_ge; [done | rewrite length_drop; lia..].
Qed.


(** [df[[TITLE, DESCRIPTION, TEXT]]] succeeds exactly on the tables that
    have the three columns. *)
Lemma select_text_columns (df picked : DataFrame) :
  select df [TITLE; DESCRIPTION; TEXT] = Ok picked <->
  exists t d x,
    get_col df TITLE = Ok t /\ get_col df DESCRIPTION = Ok d /\
    get_col df TEXT = Ok x /\
    picked = mkDataFrame (df_index df) [(TITLE, t); (DESCRIPTION, d); (TEXT, x)].
Proof.
  unfold select. cbn [mapM].
  destruct (get_col df TITLE) as [t|e]; cbn [mbind result_bind].
  2:{ split; [done|]. by intros (? & ? & ? & ? & _). }
  destruct (get_col df DESCRIPTION) as [d|e]; cbn [mbind result_bind].
  2:{ split; [done|]. by intros (? & ? & ? & _ & ? & _). }
  destruct (get_col df TEXT) as [x|e]; cbn [mbind result_bind mret result_ret].
  2:{ split; [done|]. by intros (? & ? & ? & _ & _ & ? & _). }
  split.
  - intros [= <-]. by exists t, d, x.
  - intros (t' & d' & x' & [= <-] & [= <-] & [= <-] & ->). done.
Qed.


(** ** [read] and [store] on the world *)

Lemma read_eq (ETL_DIR : string) (join : string -> string -> string)
  (f : string) (start : Z) (stop : option Z) (w : world) :
  read ETL_DIR join f start stop w
  = match read_table ETL_DIR join (files w) f start stop with
    | Ok df => (Ok df, mkWorld (files w) (trace w ++ [read_log df]))
    | Raise e => (Raise e, w)
    end.
Proof.
  unfold read, read_table, read_pickle, lift, logg, emit, read_log,
    mbind, IO_bind, mret, IO_ret.
  destruct (files w !! f) as [raw|]; [|done].
  destruct (select raw _) as [picked|e]; [|done].
  cbn [mbind result_bind].
  destruct (contains "dewiki" f); [|done].
  by destruct (files w !! join ETL_DIR "dewiki_good_ids.pickle").
Qed.

Lemma store_eq (NLP_DIR : string) (join : string -> string -> string)
  (corpus suffix : string) (df : DataFrame) (w : world) :
  let filename := join NLP_DIR (corpus +:+ suffix +:+ ".pickle") in
  store NLP_DIR join corpus df suffix w
  = (Ok tt,
     mkWorld (<[filename := df]> (files w))
       (trace w ++ [Makedirs NLP_DIR;
                    Log (corpus +:+ ": saving to " +:+ filename);
                    ToPickle filename df])).
Proof.
  unfold store, to_pickle, logg, emit, mbind, IO_bind. cbn [files trace].
  by rewrite <- !app_assoc.
Qed.

(** ** The document loader *)

(** C7, as amended.  For every source table that has the title,
    description and text columns: when the path does not contain "dewiki",
    [read] returns the rows that the Python slice [start:stop] selects, with
    these three columns in this order and their cells unchanged, and logs
    their number; for a [start] and a [stop] that are not negative these
    are exactly the rows at the offsets [start], ..., [stop - 1] that the
    table has, so 5 documents for a source of 20 with [start = 5] and
    [stop = 10].  When the path contains "dewiki", only those of these rows
    are returned whose identifier is in the allow-list. *)
Theorem read_returns_offset_range (ETL_DIR : string)
  (join : string -> string -> string) (w : world) (f : string)
  (source picked : DataFrame) (start : Z) (stop : option Z) :
  files w !! f = Some source ->
  select source [TITLE; DESCRIPTION; TEXT] = Ok picked ->
  let df := iloc picked start stop in
  (contains "dewiki" f = false ->
   read ETL_DIR join f start stop w
   = (Ok df, mkWorld (files w) (trace w ++ [read_log df]))) /\
  (contains "dewiki" f = true ->
   forall good_ids,
     files w !! join ETL_DIR "dewiki_good_ids.pickle" = Some good_ids ->
     (read ETL_DIR join f start stop w).1
     = Ok (filter_rows df (isin (df_index df) (df_index good_ids)))) /\
  map fst (df_columns df) = [TITLE; DESCRIPTION; TEXT] /\
  (forall s,
     0 <= start -> stop = Some s -> 0 <= s ->
     df_index df
     = take (Z.to_nat (s - start)) (drop (Z.to_nat start) (df_index source)) /\
     forall c col,
       c ∈ [TITLE; DESCRIPTION; TEXT] -> get_col source c = Ok col ->
       get_col df c
       = Ok (take (Z.to_nat (s - start)) (drop (Z.to_nat start) col))) /\
  (length (df_index source) = 20%nat -> start = 5 -> stop = Some 10 ->
   length (df_index df) = 5%nat).
Proof.
  intros Hfile Hsel df.
  destruct (proj1 (select_text_columns _ _) Hsel)
    as (t & d & x & Ht & Hd & Hx & Hpicked).
  split.
  { intros Hplain. rewrite read_eq. unfold read_table.
    rewrite Hfile, Hsel. cbn [mbind result_bind]. by rewrite Hplain. }
  split.
  { intros Hwiki good_ids Hgood. rewrite read_eq. unfold read_table.
    rewrite Hfile, Hsel. cbn [mbind result_bind]. by rewrite Hwiki, Hgood. }
  split; [by subst picked df|].
  split.
  { intros s Hstart -> Hs. subst df picked. unfold iloc. cbn [df_index df_columns].
    split; [by apply py_slice_range|].
    intros c col Hc Hcol. unfold get_col. cbn [df_columns map assoc].
    rewrite !py_slice_range by done.
    rewrite !elem_of_cons in Hc.
    destruct Hc as [->|[->|[->|Hc]]]; [| | |by apply elem_of_nil in Hc].
    - rewrite Hcol in Ht. injection Ht as ->. by simpl.
    - rewrite Hcol in Hd. injection Hd as ->. by simpl.
    - rewrite Hcol in Hx. injection Hx as ->. by simpl. }
  intros Hlen -> ->. subst df picked. unfold iloc. cbn [df_index].
  rewrite py_slice_range by lia. rewrite length_take, length_drop, Hlen. lia.
Qed.

Lemma read_returns_offset_range_witness :
  files sample_world !! "etl/news20.pickle" = Some (numbered_source 20) /\
  select (numbered_source 20) [TITLE; DESCRIPTION; TEXT]
  = Ok (numbered_source 20) /\
  exists df : DataFrame,
    (read "etl" sample_join "etl/news20.pickle" 5 (Some 10) sample_world).1
    = Ok df /\
    length (df_index df) = 5%nat.
Proof.
  split; [reflexivity|]. split; [reflexivity|].
  destruct (read_returns_offset_range "etl" sample_join sample_world
              "etl/news20.pickle" (numbered_source 20) (numbered_source 20)
              5 (Some 10) eq_refl eq_refl)
    as (Hplain & _ & _ & _ & Hlen).
  eexists. split.
  - rewrite (Hplain eq_refl). reflexivity.
  - apply Hlen; reflexivity.
Defined.

(** C7 fails as stated: from the 20 documents of "etl/dewiki.pickle" the
    range from 5 to 10 yields the two documents of the allow-list, not the
    five of the range. *)
Lemma dewiki_range_is_filtered :
  ~ loads_offset_range "etl" sample_join sample_world "etl/dewiki.pickle" 5 10.
Proof.
  intros H.
  destruct (H (numbered_source 20) (numbered_source 20) eq_refl eq_refl)
    as (df & Hread & Hidx & _).
  vm_compute in Hread. injection Hread as <-.
  vm_compute in Hidx. discriminate Hidx.
Qed.

(** ** Storing and reading back *)





(** * The orchestrator *)





(** C10, as amended.  A call of [read_process_store] with a [start] that
    is not zero and no [stop], with storing enabled or not, raises the type
    error of formatting [None] with [{:d}] in the log line about the range
    (line 48): nothing has been read, annotated or written by then, the
    only thing done is the first log line, and the computation of the
    suffix with its [stop - 1] is not reached. *)
Theorem run_without_stop_fails_before_reading
  (PUNCT NLP_DIR ETL_DIR VOC_DIR : string)
  (join : string -> string -> string) (nlp : string -> Doc)
  (gc_first gc_second elapsed : Z) (file_path corpus_name : string)
  (do_store vocab_to_disk : bool) (start : Z)
  (kwargs : gmap string value) (w : world) :
  start ≠ 0 ->
  read_process_store PUNCT NLP_DIR ETL_DIR VOC_DIR join nlp gc_first
    gc_second elapsed file_path corpus_name do_store vocab_to_disk start None
    kwargs w
  = (Raise TypeError_format,
     mkWorld (files w)
       (trace w ++ [Log ("*** start new corpus: " +:+ corpus_name)])).
Proof.
  intros Hstart. unfold read_process_store.
  unfold mbind, IO_bind, logg, emit, lift. cbn [truthy_int].
  destruct (Z.eqb_spec start 0) as [|_]; [done|].
  reflexivity.
Qed.

Lemma run_without_stop_fails_before_reading_witness :
  5 ≠ 0 /\
  read_process_store "PUNCT" "nlp" "etl" "voc" sample_join sample_nlp 12 3
    3725 "etl/news.pickle" "news" true false 5 None ∅ sample_world
  = (Raise TypeError_format,
     mkWorld (files sample_world)
       (trace sample_world ++ [Log ("*** start new corpus: " +:+ "news")])).
Proof.
  split; [lia|].
  apply (run_without_stop_fails_before_reading "PUNCT" "nlp" "etl" "voc"
           sample_join sample_nlp 12 3 3725 "etl/news.pickle" "news" true
           false 5 ∅ sample_world).
  lia.
Defined.

(** C10 fails as stated: with [start = 5] and no [stop] the run is not
    ended by the subtraction in the suffix; it has raised before. *)
Lemma missing_stop_fails_before_suffix :
  ~ fails_in_suffix "PUNCT" "nlp" "etl" "voc" sample_join sample_nlp 12 3
      3725 "etl/news.pickle" "news" false 5 ∅ sample_world.
Proof. unfold fails_in_suffix. vm_compute. discriminate. Qed.

(** * Further properties of the token table *)

(** * Further properties of the assembly and of the annotation loop *)

(** X1.  The table [df_from_docs] returns has the columns of [FIELDS], in
    that order and no others (the lemma, dictionary-lemma and
    sentence-start columns are dropped); its rows are labelled 0, 1, ... and
    every column has one cell per record. *)
Theorem assembled_table_shape (PUNCT : string) (docs : list attr) :
  exists df : DataFrame,
    df_from_docs PUNCT docs = Ok df /\
    map fst (df_columns df) = FIELDS /\
    df_index df = map VInt (seqZ 0 (Z.of_nat (length docs))) /\
    length (df_index df) = length docs /\
    rectangular df.
Proof.
  exists (assembled PUNCT docs). split; [apply df_from_docs_eq|].
  split; [done|]. split; [done|].
  assert (Hlen : length (df_index (assembled PUNCT docs)) = length docs)
    by apply length_range.
  split; [done|].
  unfold rectangular. rewrite Hlen. unfold assembled. cbn [df_columns].
  repeat apply Forall_cons_2; try apply Forall_nil_2; cbn [snd];
    first [apply length_map | apply length_imap].
Qed.

(** A column of the records that depends on the token alone. *)
Lemma batch_attrs_column {A} (f : attr -> A) (g : Token.t -> A) (c : Z)
  (batch : list (value * Doc)) :
  (forall key np t, f (token_attr key np t) = g t) ->
  map f (batch_attrs c batch)
  = map g (flat_map (fun kd => doc_tokens kd.2) batch).
Proof.
  intros Hfg. revert c.
  induction batch as [|[key doc] batch IH]; intros c; [done|].
  cbn [batch_attrs flat_map]. rewrite !map_app, map_map.
  f_equal; [apply map_ext; intros t; apply Hfg | apply IH].
Qed.




(** * The text of a document, and batches that fail *)

(** ** What the loop hands to the pipeline, and when it raises *)

Lemma filter_truthy_text_cells (items : list value) :
  Forall text_cell items ->
  List.filter truthy items = map VStr (cell_texts items).
Proof.
  induction 1 as [|v items Hv Hitems IH]; [done|].
  destruct Hv as [->|[s ->]]; [exact IH|].
  unfold cell_texts in *. simpl.
  destruct (String.eqb s ""); simpl; by rewrite IH.
Qed.

Lemma str_join_strings (sep : string) (l : list string) :
  str_join sep (map VStr l) = Ok (String.concat sep l).
Proof.
  induction l as [|x l IH]; [done|].
  cbn [map str_join]. destruct l as [|y l]; [done|].
  cbn [map] in *. rewrite IH. done.
Qed.

(** X3.  For a tuple whose title, description and body are strings or
    [None], the text handed to the pipeline is made of those of the three
    that are not empty, in the order title, description, body, with one
    newline between two of them; when all three are empty or missing, the
    pipeline is handed the empty text. *)
Theorem pipeline_text_joins_nonempty_fields (nlp : string -> Doc)
  (key title descr text : value) :
  Forall text_cell [title; descr; text] ->
  row_doc nlp [key; title; descr; text]
  = Ok (key, nlp (String.concat newline (cell_texts [title; descr; text]))).
Proof.
  intros Hcells. unfold row_doc. cbn [unpack4 mbind result_bind].
  by rewrite (filter_truthy_text_cells _ Hcells), str_join_strings.
Qed.

Lemma pipeline_text_joins_nonempty_fields_witness :
  Forall text_cell [VStr ""; VStr "Run."; VNone] /\
  row_doc sample_nlp [VStr "B"; VStr ""; VStr "Run."; VNone]
  = Ok (VStr "B", sample_nlp "Run.").
Proof.
  assert (H : Forall text_cell [VStr ""; VStr "Run."; VNone]).
  { repeat apply Forall_cons_2; [right; by eexists.. | by left | constructor]. }
  split; [exact H|].
  apply (pipeline_text_joins_nonempty_fields sample_nlp (VStr "B") _ _ _ H).
Defined.

(** One iteration raises exactly on a cell that Python takes for true and
    that is not a string (a [nan], a number that is not 0, [True]); cells
    it takes for false ([None], the empty string, 0, [False]) are skipped
    whatever their type. *)
Lemma str_join_filter_cases (items : list value) :
  (Exists (fun v => truthy v = true /\ forall s, v ≠ VStr s) items /\
   str_join newline (List.filter truthy items) = Raise TypeError_join) \/
  (Forall (fun v => truthy v = false \/ exists s, v = VStr s) items /\
   exists joined, str_join newline (List.filter truthy items) = Ok joined).
Proof.
  induction items as [|v items IH]; [right; split; [constructor | by eexists]|].
  cbn [List.filter].
  destruct (truthy v) eqn:Hv.
  - destruct v as [| |s|z|b].
    + done.
    + left. split; [left; by split|done].
    + destruct IH as [[Hex Hraise]|[Hall [j Hj]]].
      * left. split; [by right|]. cbn [str_join]. rewrite Hraise.
        destruct (List.filter truthy items); [done|done].
      * right. split; [constructor; [right; by eexists | done]|].
        cbn [str_join]. rewrite Hj. destruct (List.filter truthy items); by eexists.
    + left. split; [left; by split|done].
    + left. split; [left; by split|done].
  - destruct IH as [[Hex Hraise]|[Hall Hj]].
    + left. split; [by right | done].
    + right. split; [constructor; [by left | done] | done].
Qed.

(** X4.  An iteration of [process_docs] over a tuple of a key and three
    cells raises a type error exactly when one of the cells counts as true
    for Python without being a string, such as the [nan] of a missing
    value or a number; cells that count as false ([None], the empty
    string, 0, [False]) are skipped without an error. *)
Theorem row_raises_on_truthy_non_string (nlp : string -> Doc)
  (key title descr text : value) :
  (row_doc nlp [key; title; descr; text] = Raise TypeError_join <->
   Exists (fun v => truthy v = true /\ forall s, v ≠ VStr s)
     [title; descr; text]) /\
  ((exists joined, row_doc nlp [key; title; descr; text] = Ok (key, nlp joined))
   <-> Forall (fun v => truthy v = false \/ exists s, v = VStr s)
         [title; descr; text]).
Proof.
  unfold row_doc. cbn [unpack4 mbind result_bind].
  assert (Hexcl : forall v : value,
             (truthy v = true /\ forall s, v ≠ VStr s) ->
             (truthy v = false \/ exists s, v = VStr s) -> False).
  { intros v [Ht Hs] [Hf|[s ->]]; [congruence | by eapply Hs]. }
  destruct (str_join_filter_cases [title; descr; text])
    as [[Hex ->]|[Hall [j ->]]]; cbn [mbind result_bind].
  - split; [done|]. split; [by intros [? ?]|].
    intros Hall. exfalso. rewrite Exists_exists in Hex.
    destruct Hex as (v & Hin & Hv). rewrite Forall_forall in Hall.
    apply (Hexcl v Hv), Hall, Hin.
  - split; [|split; [done | by eexists]].
    split; [done|]. intros Hex. exfalso. rewrite Exists_exists in Hex.
    destruct Hex as (v & Hin & Hv). rewrite Forall_forall in Hall.
    apply (Hexcl v Hv), Hall, Hin.
Qed.

Lemma mapM_row_doc_abort (nlp : string -> Doc)
  (pre post : list (list value)) (kv : list value) (e : error) :
  Forall (fun r => exists kd, row_doc nlp r = Ok kd) pre ->
  row_doc nlp kv = Raise e ->
  mapM (row_doc nlp) (pre ++ kv :: post) = Raise e.
Proof.
  intros Hpre Hkv. induction Hpre as [|r pre [kd Hr] _ IH]; cbn [app mapM].
  - by rewrite Hkv.
  - by rewrite Hr, IH.
Qed.

(** X5.  When the annotation of one document raises, [process_docs] raises
    that error for the whole batch, however many documents before it were
    annotated and whatever follows: there is no table of the documents that
    went through. *)
Theorem failing_document_aborts_batch (PUNCT : string) (nlp : string -> Doc)
  (text_df : DataFrame) (pre post : list (list value)) (kv : list value)
  (e : error) :
  itertuples text_df = pre ++ kv :: post ->
  Forall (fun r => exists kd, row_doc nlp r = Ok kd) pre ->
  row_doc nlp kv = Raise e ->
  token_records nlp text_df = Raise e /\
  process_docs PUNCT nlp text_df = Raise e.
Proof.
  intros Hrows Hpre Hkv.
  assert (Hrec : token_records nlp text_df = Raise e).
  { rewrite token_records_eq. unfold batch_docs.
    by rewrite Hrows, (mapM_row_doc_abort nlp pre post kv e Hpre Hkv). }
  split; [done|]. unfold process_docs. by rewrite Hrec.
Qed.

Lemma failing_document_aborts_batch_witness :
  itertuples nan_text_df
  = [[VStr "A"; VStr "Cat Dog"; VNone; VNone]]
    ++ [VStr "B"; VNaN; VStr "Run."; VStr ""] :: [] /\
  process_docs "PUNCT" sample_nlp nan_text_df = Raise TypeError_join.
Proof.
  split; [reflexivity|].
  apply (failing_document_aborts_batch "PUNCT" sample_nlp nan_text_df
           [[VStr "A"; VStr "Cat Dog"; VNone; VNone]] []
           [VStr "B"; VNaN; VStr "Run."; VStr ""] TypeError_join).
  - reflexivity.
  - repeat constructor. by eexists.
  - reflexivity.
Defined.

(** X6.  On a table that has a row and does not have exactly three
    columns, [process_docs] raises the error of unpacking its first tuple,
    before the pipeline is called. *)
Theorem wrong_column_count_raises (PUNCT : string) (nlp : string -> Doc)
  (text_df : DataFrame) :
  df_index text_df ≠ [] ->
  length (df_columns text_df) ≠ 3%nat ->
  process_docs PUNCT nlp text_df = Raise ValueError_unpack.
Proof.
  intros Hidx Hcols.
  destruct text_df as [[|k idx] cols]; [done|].
  unfold process_docs, token_records, itertuples.
  cbn [df_index df_columns itertuples_rows process_loop] in *.
  assert (Hun : unpack4 (k :: map (hd VNone) (map snd cols))
                = Raise ValueError_unpack).
  { destruct cols as [|c1 [|c2 [|c3 [|c4 cols]]]]; try done. }
  by rewrite Hun.
Qed.

Lemma wrong_column_count_raises_witness :
  df_index sample_source ≠ [] /\
  length (df_columns sample_source) ≠ 3%nat /\
  process_docs "PUNCT" sample_nlp sample_source = Raise ValueError_unpack.
Proof.
  assert (H1 : df_index sample_source ≠ []) by discriminate.
  assert (H2 : length (df_columns sample_source) ≠ 3%nat) by discriminate.
  split; [exact H1|]. split; [exact H2|].
  exact (wrong_column_count_raises "PUNCT" sample_nlp sample_source H1 H2).
Defined.

(** * Noun-phrase ids over a batch *)

(** ** The range of the noun-phrase ids *)

(** An index that lies in some chunk is entered under a number above the
    counter's start and up to its end. *)
Lemma chunk_fold_range (c : Z) (np : gmap Z Z) (chunks : list Span) (i : Z) :
  Exists (fun ch => i ∈ Token.i <$> ch) chunks ->
  exists v,
    (foldl chunk_step (c, np) chunks).2 !! i = Some v /\
    c < v <= c + Z.of_nat (length chunks).
Proof.
  revert c np. induction chunks as [|ch chunks IH]; intros c np Hex.
  { by apply Exists_nil in Hex. }
  cbn [foldl chunk_step length].
  destruct (decide (Exists (fun ch => i ∈ Token.i <$> ch) chunks))
    as [Hlater|Hnone].
  - destruct (IH (c + 1) (mark_chunk (c + 1) np ch) Hlater) as (v & Hv & Hr).
    exists v. split; [done | lia].
  - apply Exists_cons in Hex as [Hin|Hlater]; [|done].
    exists (c + 1). split; [|lia].
    rewrite chunk_fold_outside.
    + by apply mark_chunk_in.
    + intros ch' Hch' Hi. apply Hnone, Exists_exists. eauto.
Qed.

(** The chunks of a document and of those before it are chunks of the
    batch. *)
Lemma batch_tokens_before (n : nat) (batch : list (value * Doc)) :
  Forall
    (fun '(key, doc, before, t) =>
       Z.of_nat n <= before /\
       before + Z.of_nat (length (noun_chunks doc))
       <= Z.of_nat n + Z.of_nat (length (batch_chunks batch)))
    (batch_tokens (Z.of_nat n) batch).
Proof.
  revert n. induction batch as [|[key doc] batch IH]; intros n; simpl.
  { constructor. }
  assert (Hlen : length (batch_chunks ((key, doc) :: batch))
                 = (length (noun_chunks doc) + length (batch_chunks batch))%nat).
  { unfold batch_chunks. cbn [map concat snd]. apply length_app. }
  apply Forall_app. split.
  - apply Forall_fmap, Forall_forall. intros t _. simpl. lia.
  - replace (Z.of_nat n + Z.of_nat (length (noun_chunks doc)))
      with (Z.of_nat (n + length (noun_chunks doc))) by lia.
    eapply Forall_impl; [apply IH|].
    intros [[[key' doc'] before] t] [H1 H2]. split; lia.
Qed.

(** X7.  In every processed batch the noun-phrase id of a token is 0
    exactly when the token's index lies in no chunk of its document;
    otherwise it lies above the number of chunks emitted before the
    document and at most at that number plus the number of chunks of the
    document, so that tokens of different documents never share a nonzero
    id, and no id exceeds the number of chunks of the batch. *)
Theorem noun_phrase_id_range (nlp : string -> Doc) (text_df : DataFrame)
  (docs : list attr) :
  token_records nlp text_df = Ok docs ->
  exists batch : list (value * Doc),
    batch_docs nlp text_df = Ok batch /\
    Forall2
      (fun r '(key, doc, before, t) =>
         (attr_noun_phrase r = 0 <->
          forall c, c ∈ noun_chunks doc -> Token.i t ∉ Token.i <$> c) /\
         (attr_noun_phrase r ≠ 0 ->
          before < attr_noun_phrase r
          <= before + Z.of_nat (length (noun_chunks doc))) /\
         0 <= before /\
         before + Z.of_nat (length (noun_chunks doc))
         <= Z.of_nat (length (batch_chunks batch)))
      docs (batch_tokens 0 batch).
Proof.
  intros Hdocs.
  destruct (token_records_inv _ _ _ Hdocs) as (batch & Hbatch & ->).
  exists batch. split; [done|].
  eapply Forall2_impl.
  { apply Forall2_and_r;
      [apply batch_attrs_tokens | apply (batch_tokens_before 0 batch)]. }
  intros r [[[key doc] before] t] [-> [Hb1 Hb2]].
  rewrite token_attr_noun_phrase. unfold mark_chunks.
  destruct (decide (Exists (fun ch => Token.i t ∈ Token.i <$> ch)
                      (noun_chunks doc))) as [Hin|Hout].
  - destruct (chunk_fold_range before ∅ _ _ Hin) as (v & -> & Hv).
    simpl. simpl in Hb1. split; [|split; [intros _; lia | lia]].
    split; [intros Hv0; lia|]. intros Hnone. exfalso.
    apply Exists_exists in Hin as (ch & Hch & Hi). by apply (Hnone ch).
  - assert (Hnone : forall c, c ∈ noun_chunks doc ->
                              Token.i t ∉ Token.i <$> c).
    { intros c Hc Hi. apply Hout, Exists_exists. eauto. }
    rewrite chunk_fold_outside by done. rewrite lookup_empty. simpl.
    simpl in Hb1. split; [done|]. split; [done | lia].
Qed.

Lemma noun_phrase_id_range_witness :
  token_records sample_nlp sample_text_df = Ok sample_records /\
  exists batch : list (value * Doc),
    batch_docs sample_nlp sample_text_df = Ok batch /\
    Forall2
      (fun r '(key, doc, before, t) =>
         (attr_noun_phrase r = 0 <->
          forall c, c ∈ noun_chunks doc -> Token.i t ∉ Token.i <$> c) /\
         (attr_noun_phrase r ≠ 0 ->
          before < attr_noun_phrase r
          <= before + Z.of_nat (length (noun_chunks doc))) /\
         0 <= before /\
         before + Z.of_nat (length (noun_chunks doc))
         <= Z.of_nat (length (batch_chunks batch)))
      sample_records (batch_tokens 0 batch).
Proof.
  split; [reflexivity|].
  apply (noun_phrase_id_range sample_nlp sample_text_df sample_records).
  reflexivity.
Defined.

(** ** Batches in pieces *)

Lemma batch_chunks_app (b1 b2 : list (value * Doc)) :
  batch_chunks (b1 ++ b2) = batch_chunks b1 ++ batch_chunks b2.
Proof. unfold batch_chunks. by rewrite map_app, concat_app. Qed.

Lemma batch_attrs_app (c : Z) (b1 b2 : list (value * Doc)) :
  batch_attrs c (b1 ++ b2)
  = batch_attrs c b1
    ++ batch_attrs (c + Z.of_nat (length (batch_chunks b1))) b2.
Proof.
  revert c. induction b1 as [|[key doc] b1 IH]; intros c.
  { simpl. f_equal. unfold batch_chunks. simpl. lia. }
  cbn [app batch_attrs]. rewrite IH, <- app_assoc. do 3 f_equal.
  unfold mark_chunks. rewrite chunk_fold_counter.
  unfold batch_chunks. cbn [map concat snd]. rewrite length_app. lia.
Qed.

(** Starting the counter [k] higher raises every entry by [k]. *)
Lemma chunk_fold_shift (k c : Z) (np : gmap Z Z) (chunks : list Span) :
  foldl chunk_step (c + k, Z.add k <$> np) chunks
  = ((foldl chunk_step (c, np) chunks).1 + k,
     Z.add k <$> (foldl chunk_step (c, np) chunks).2).
Proof.
  revert c np. induction chunks as [|ch chunks IH]; intros c np; [done|].
  cbn [foldl chunk_step].
  replace (c + k + 1) with (c + 1 + k) by lia.
  replace (mark_chunk (c + 1 + k) (Z.add k <$> np) ch)
    with (Z.add k <$> mark_chunk (c + 1) np ch); [apply IH|].
  clear. revert np. induction ch as [|t ch IH]; intros np; [done|].
  unfold mark_chunk in *. cbn [foldl]. rewrite IH. f_equal.
  rewrite fmap_insert. f_equal. lia.
Qed.

Lemma batch_attrs_shift (k c : Z) (batch : list (value * Doc)) :
  0 <= c ->
  batch_attrs (c + k) batch = map (shift_noun_phrase k) (batch_attrs c batch).
Proof.
  revert c. induction batch as [|[key doc] batch IH]; intros c Hc; [done|].
  cbn [batch_attrs]. rewrite map_app, map_map.
  unfold mark_chunks.
  pose proof (chunk_fold_shift k c ∅ (noun_chunks doc)) as Hshift.
  rewrite fmap_empty in Hshift. rewrite Hshift. cbn [fst snd].
  f_equal.
  - apply map_ext. intros t. unfold shift_noun_phrase, token_attr.
    cbn [attr_hash attr_text attr_lemma attr_iwnlp attr_pos attr_tok_idx
         attr_sent_start attr_ent_iob attr_ent_type attr_noun_phrase].
    f_equal. rewrite lookup_fmap.
    destruct (decide (Exists (fun ch => Token.i t ∈ Token.i <$> ch)
                        (noun_chunks doc))) as [Hin|Hout].
    + destruct (chunk_fold_range c ∅ _ _ Hin) as (v & -> & Hv).
      simpl. destruct (Z.eqb_spec v 0); lia.
    + rewrite chunk_fold_outside, lookup_empty; [done|].
      intros ch Hch Hi. apply Hout, Exists_exists. eauto.
  - rewrite chunk_fold_counter. apply IH. lia.
Qed.

(** X8.  The noun-phrase ids depend on how the corpus is cut into runs:
    when the tuples of one run are followed by those of another in a single
    run, the records are those of the two runs, one after the other, with
    every nonzero noun-phrase id of the second run raised by the number of
    chunks of the first; nothing else in the records changes. *)
Theorem noun_phrase_ids_continue_across_runs (nlp : string -> Doc)
  (rows1 rows2 : list (list value)) (batch1 : list (value * Doc))
  (docs1 docs2 : list attr) :
  mapM (row_doc nlp) rows1 = Ok batch1 ->
  process_loop nlp rows1 0 [] = Ok docs1 ->
  process_loop nlp rows2 0 [] = Ok docs2 ->
  process_loop nlp (rows1 ++ rows2) 0 []
  = Ok (docs1
        ++ map (shift_noun_phrase (Z.of_nat (length (batch_chunks batch1))))
             docs2).
Proof.
  rewrite !process_loop_eq. intros Hb1 H1 H2. rewrite Hb1 in H1.
  cbn [mbind result_bind app] in H1. injection H1 as <-.
  destruct (mapM (row_doc nlp) rows2) as [batch2|e] eqn:Hb2; [|done].
  cbn [mbind result_bind app] in H2. injection H2 as <-.
  assert (Happ : mapM (row_doc nlp) (rows1 ++ rows2) = Ok (batch1 ++ batch2)).
  { clear -Hb1 Hb2. revert batch1 Hb1.
    induction rows1 as [|kv rows1 IH]; intros batch1 Hb1.
    - injection Hb1 as <-. done.
    - cbn [app mapM] in *. destruct (row_doc nlp kv) as [kd|e]; [|done].
      cbn [mbind result_bind] in *.
      destruct (mapM (row_doc nlp) rows1) as [b|e]; [|done].
      cbn [mbind result_bind mret result_ret] in *. injection Hb1 as <-.
      by rewrite (IH b eq_refl). }
  rewrite Happ. cbn [mbind result_bind app]. f_equal.
  rewrite batch_attrs_app. f_equal.
  rewrite <- (batch_attrs_shift _ 0) by lia. f_equal.
Qed.

Lemma noun_phrase_ids_continue_across_runs_witness :
  process_loop sample_nlp [[VStr "A"; VStr "Cat Dog"; VNone; VNone]] 0 []
  = Ok (take 2 sample_records) /\
  process_loop sample_nlp
    ([[VStr "A"; VStr "Cat Dog"; VNone; VNone]]
     ++ [[VStr "B"; VStr ""; VStr "Run."; VStr ""]]) 0 []
  = Ok (take 2 sample_records
        ++ map (shift_noun_phrase 1)
             [ mkAttr (VStr "B") "Run" "run" None "VERB" 0 1 "O" "" 1;
               mkAttr (VStr "B") "." "%" None "X" 1 0 "O" "" 0 ]).
Proof.
  split; [reflexivity|].
  apply (noun_phrase_ids_continue_across_runs sample_nlp
           [[VStr "A"; VStr "Cat Dog"; VNone; VNone]]
           [[VStr "B"; VStr ""; VStr "Run."; VStr ""]]
           [(VStr "A", sample_nlp "Cat Dog")]); reflexivity.
Defined.

(** * Running indices, and [check_docs] *)

(** ** Tables in pieces *)







(** * [check_docs] *)

Lemma check_loop_cons (nlp : string -> Doc) (kv : list value)
  (rows : list (list value)) (out : list string) :
  check_loop nlp (kv :: rows) out
  = match row_doc nlp kv with
    | Ok kd => check_loop nlp rows (out ++ map print_line (doc_tokens kd.2))
    | Raise e => (Raise e, out)
    end.
Proof.
  cbn [check_loop]. unfold row_doc.
  destruct (unpack4 kv) as [[[[key title] descr] text]|e]; [|done].
  cbn [mbind result_bind].
  by destruct (str_join _ _) as [joined|e].
Qed.

Lemma check_loop_result (nlp : string -> Doc) (rows : list (list value))
  (out : list string) :
  (check_loop nlp rows out).1 = (batch ← mapM (row_doc nlp) rows; Ok tt).
Proof.
  revert out. induction rows as [|kv rows IH]; intros out; [done|].
  rewrite check_loop_cons. cbn [mapM].
  destruct (row_doc nlp kv) as [kd|e]; [|done].
  rewrite IH. cbn [mbind result_bind].
  by destruct (mapM (row_doc nlp) rows).
Qed.

Lemma check_loop_lines (nlp : string -> Doc) (rows : list (list value))
  (out : list string) (batch : list (value * Doc)) :
  mapM (row_doc nlp) rows = Ok batch ->
  (check_loop nlp rows out).2
  = out ++ map print_line (flat_map (fun kd => doc_tokens kd.2) batch).
Proof.
  revert out batch. induction rows as [|kv rows IH]; intros out batch.
  { intros [= <-]. simpl. by rewrite app_nil_r. }
  rewrite check_loop_cons. cbn [mapM].
  destruct (row_doc nlp kv) as [kd|e]; [|done].
  cbn [mbind result_bind].
  destruct (mapM (row_doc nlp) rows) as [b|e]; [|done].
  cbn [mbind result_bind mret result_ret]. intros [= <-].
  rewrite (IH _ b eq_refl). cbn [flat_map].
  by rewrite map_app, app_assoc.
Qed.

(** X10.  [check_docs] goes through the documents as [process_docs] does:
    it raises exactly when the annotation of the batch raises, and with the
    same error; when it returns it has printed one line per row of the
    token table, in the order of the rows, each with the index, the
    sentence-start mark of the pipeline and the text of the token. *)
Theorem check_docs_follows_process_docs (nlp : string -> Doc)
  (text_df : DataFrame) :
  (check_docs nlp text_df).1 = (docs ← token_records nlp text_df; Ok tt) /\
  forall docs,
    token_records nlp text_df = Ok docs ->
    exists batch : list (value * Doc),
      batch_docs nlp text_df = Ok batch /\
      (check_docs nlp text_df).2
      = map print_line (flat_map (fun kd => doc_tokens kd.2) batch) /\
      length (check_docs nlp text_df).2 = length docs.
Proof.
  unfold check_docs. rewrite check_loop_result, token_records_eq.
  unfold batch_docs.
  destruct (mapM (row_doc nlp) (itertuples text_df)) as [batch|e] eqn:Hbatch.
  - split; [done|]. cbn [mbind result_bind].
    intros docs [= <-]. exists batch. split; [done|].
    rewrite (check_loop_lines _ _ _ _ Hbatch). cbn [app].
    split; [done|]. rewrite length_map.
    rewrite <- (length_map attr_tok_idx),
      (batch_attrs_column _ Token.i) by done.
    by rewrite length_map.
  - split; [done|]. intros docs Hdocs. done.
Qed.

(** * [read] and [store] *)

(** * Further properties of loading and storing *)

(** X11.  [read] only reads: whatever it returns or raises, the files are
    as before; when it raises it has not logged anything; when it returns
    a table it has logged one line, the number of documents of that
    table. *)
Theorem read_only_reads (ETL_DIR : string)
  (join : string -> string -> string) (f : string) (start : Z)
  (stop : option Z) (w : world) :
  files (read ETL_DIR join f start stop w).2 = files w /\
  (forall e,
     (read ETL_DIR join f start stop w).1 = Raise e ->
     (read ETL_DIR join f start stop w).2 = w) /\
  (forall df,
     (read ETL_DIR join f start stop w).1 = Ok df ->
     trace (read ETL_DIR join f start stop w).2
     = trace w
       ++ [Log ("using " +:+ pretty (Z.of_nat (length (df_index df)))
                +:+ " documents")]).
Proof.
  rewrite read_eq.
  destruct (read_table ETL_DIR join (files w) f start stop) as [df|e];
    cbn [fst snd files trace].
  - split; [done|]. split; [done|]. by intros df' [= <-].
  - split; [done|]. split; [done|]. done.
Qed.

(** X12.  [read] raises a file-not-found error for a source that does not
    exist; a key error for the first of the columns title, description and
    text that the source lacks, whatever the range; and for a path that
    contains "dewiki" a file-not-found error for the allow-list when that
    file does not exist, although the source could be read. *)
Theorem read_failures (ETL_DIR : string)
  (join : string -> string -> string) (f : string) (start : Z)
  (stop : option Z) (w : world) :
  (files w !! f = None ->
   read ETL_DIR join f start stop w = (Raise (FileNotFoundError f), w)) /\
  (forall source,
     files w !! f = Some source ->
     (assoc TITLE (df_columns source) = None ->
      read ETL_DIR join f start stop w = (Raise (KeyError TITLE), w)) /\
     (assoc TITLE (df_columns source) ≠ None ->
      assoc DESCRIPTION (df_columns source) = None ->
      read ETL_DIR join f start stop w = (Raise (KeyError DESCRIPTION), w)) /\
     (assoc TITLE (df_columns source) ≠ None ->
      assoc DESCRIPTION (df_columns source) ≠ None ->
      assoc TEXT (df_columns source) = None ->
      read ETL_DIR join f start stop w = (Raise (KeyError TEXT), w)) /\
     (assoc TITLE (df_columns source) ≠ None ->
      assoc DESCRIPTION (df_columns source) ≠ None ->
      assoc TEXT (df_columns source) ≠ None ->
      contains "dewiki" f = true ->
      files w !! join ETL_DIR "dewiki_good_ids.pickle" = None ->
      read ETL_DIR join f start stop w
      = (Raise (FileNotFoundError (join ETL_DIR "dewiki_good_ids.pickle")),
         w))).
Proof.
  rewrite read_eq. unfold read_table.
  split; [by intros ->|].
  intros source ->. unfold select, get_col. cbn [mapM].
  destruct (assoc TITLE (df_columns source)) as [t|];
    cbn [mbind result_bind].
  2:{ repeat split; done. }
  destruct (assoc DESCRIPTION (df_columns source)) as [d|];
    cbn [mbind result_bind].
  2:{ repeat split; done. }
  destruct (assoc TEXT (df_columns source)) as [x|];
    cbn [mbind result_bind mret result_ret].
  2:{ repeat split; done. }
  repeat split; try done.
  intros _ _ _ -> ->. done.
Qed.

Lemma mask_filter_map {A} (p : A -> bool) (l : list A) :
  mask_filter (map p l) l = List.filter p l.
Proof.
  induction l as [|x l IH]; [done|]. simpl. rewrite IH.
  by destruct (p x).
Qed.

Lemma mask_filter_zip {A B} (p : A -> bool) (l : list A) (k : list B) :
  length k = length l ->
  zip (mask_filter (map p l) l) (mask_filter (map p l) k)
  = List.filter (fun ab => p ab.1) (zip l k).
Proof.
  revert k. induction l as [|x l IH]; intros k Hk; [done|].
  destruct k as [|y k]; [done|]. injection Hk as Hk.
  simpl. destruct (p x); simpl; by rewrite IH.
Qed.

Lemma assoc_map_columns (g : list value -> list value) (c : column)
  (cols : list (column * list value)) :
  assoc c (map (fun '(c, v) => (c, g v)) cols) = g <$> assoc c cols.
Proof.
  induction cols as [|[c' v] cols IH]; [done|].
  simpl. by destruct (decide (c = c')).
Qed.

(** X13.  For a path that contains "dewiki", the rows [read] returns are
    those rows of the range whose identifier occurs in the index of the
    allow-list, in their order: no returned identifier is off the list, no
    listed identifier of the range is left out, and in every column each
    cell stays with its identifier. *)
Theorem dewiki_rows_are_allow_listed (ETL_DIR : string)
  (join : string -> string -> string) (w : world) (f : string)
  (source picked good_ids : DataFrame) (start : Z) (stop : option Z) :
  files w !! f = Some source ->
  select source [TITLE; DESCRIPTION; TEXT] = Ok picked ->
  contains "dewiki" f = true ->
  files w !! join ETL_DIR "dewiki_good_ids.pickle" = Some good_ids ->
  let range := iloc picked start stop in
  let listed := fun k => existsb (isin_eq k) (df_index good_ids) in
  exists df : DataFrame,
    (read ETL_DIR join f start stop w).1 = Ok df /\
    df_index df = List.filter listed (df_index range) /\
    Forall (fun k => listed k = true) (df_index df) /\
    forall c col,
      get_col range c = Ok col ->
      length col = length (df_index range) ->
      exists col',
        get_col df c = Ok col' /\
        zip (df_index df) col'
        = List.filter (fun kv => listed kv.1) (zip (df_index range) col).
Proof.
  intros Hfile Hsel Hwiki Hgood range listed.
  exists (filter_rows range (isin (df_index range) (df_index good_ids))).
  split.
  { rewrite read_eq. unfold read_table.
    rewrite Hfile, Hsel. cbn [mbind result_bind]. by rewrite Hwiki, Hgood. }
  unfold filter_rows, isin. cbn [df_index df_columns].
  fold listed. rewrite mask_filter_map.
  split; [done|]. split.
  { apply Forall_forall. intros k Hk.
    apply list_elem_of_In, filter_In in Hk. tauto. }
  intros c col Hcol Hlen. unfold get_col in *.
  cbn [df_columns].
  rewrite (assoc_map_columns (mask_filter (map listed (df_index range)))).
  destruct (assoc c (df_columns range)) as [v|]; [|done].
  injection Hcol as ->. eexists. split; [reflexivity|].
  rewrite <- mask_filter_map. by apply mask_filter_zip.
Qed.

Lemma dewiki_rows_are_allow_listed_witness :
  files sample_world !! "etl/dewiki.pickle" = Some (numbered_source 20) /\
  exists df : DataFrame,
    (read "etl" sample_join "etl/dewiki.pickle" 5 (Some 10) sample_world).1
    = Ok df /\
    df_index df = [VInt 6; VInt 7].
Proof.
  split; [reflexivity|].
  destruct (dewiki_rows_are_allow_listed "etl" sample_join sample_world
              "etl/dewiki.pickle" (numbered_source 20) (numbered_source 20)
              sample_good_ids 5 (Some 10) eq_refl eq_refl eq_refl eq_refl)
    as (df & Hread & Hidx & _).
  exists df. split; [exact Hread|]. rewrite Hidx. reflexivity.
Defined.

(** X14.  Whatever the offsets, negative ones included, the rows [read]
    takes from a source whose path does not contain "dewiki" stand next to
    each other in the source and keep their order: the identifiers of the
    source are some rows, then the rows returned, then some rows.  A
    negative [start] counts from the end: with [start = -k] and no [stop]
    the last [k] rows are returned. *)
Theorem read_returns_a_segment (ETL_DIR : string)
  (join : string -> string -> string) (w : world) (f : string)
  (source picked : DataFrame) (start : Z) (stop : option Z) :
  files w !! f = Some source ->
  select source [TITLE; DESCRIPTION; TEXT] = Ok picked ->
  contains "dewiki" f = false ->
  exists df : DataFrame,
    (read ETL_DIR join f start stop w).1 = Ok df /\
    (exists above below,
       df_index source = above ++ df_index df ++ below) /\
    (length (df_index df) <= length (df_index source))%nat /\
    (forall k : nat,
       (0 < k <= length (df_index source))%nat ->
       start = - Z.of_nat k -> stop = None ->
       df_index df = drop (length (df_index source) - k) (df_index source)).
Proof.
  intros Hfile Hsel Hplain.
  exists (iloc picked start stop). split.
  { rewrite read_eq. unfold read_table.
    rewrite Hfile, Hsel. cbn [mbind result_bind]. by rewrite Hplain. }
  apply select_text_columns in Hsel as (t & d & x & _ & _ & _ & ->).
  unfold iloc, py_slice. cbn [df_index].
  set (idx := df_index source).
  set (lo := Z.to_nat (clip (Z.of_nat (length idx)) start)).
  set (n := Z.to_nat _).
  split.
  { exists (take lo idx), (drop n (drop lo idx)).
    by rewrite take_drop, take_drop. }
  split.
  { rewrite length_take, length_drop. lia. }
  intros k Hk -> ->. subst n lo. unfold clip.
  destruct (Z.ltb_spec (- Z.of_nat k) 0); [|lia].
  replace (Z.to_nat (Z.max (- Z.of_nat k + Z.of_nat (length idx)) 0))
    with (length idx - k)%nat by lia.
  apply take_ge. rewrite length_drop. lia.
Qed.

Lemma read_returns_a_segment_witness :
  files sample_world !! "etl/news20.pickle" = Some (numbered_source 20) /\
  exists df : DataFrame,
    (read "etl" sample_join "etl/news20.pickle" (-3) None sample_world).1
    = Ok df /\
    df_index df = [VInt 17; VInt 18; VInt 19].
Proof.
  split; [reflexivity|].
  destruct (read_returns_a_segment "etl" sample_join sample_world
              "etl/news20.pickle" (numbered_source 20) (numbered_source 20)
              (-3) None eq_refl eq_refl eq_refl)
    as (df & Hread & _ & _ & Hlast).
  exists df. split; [exact Hread|].
  rewrite (Hlast 3%nat); [reflexivity | vm_compute; lia | reflexivity..].
Defined.


(** * Runs of [read_process_store] *)

(** * Further properties of the orchestrator *)

(** [read_process_store] case by case: it stops at the log line about the
    range for a [start] that is not 0 without a [stop]; it names no range
    when [start] and [stop] are both 0 or absent; otherwise it names the
    range in the log and in the suffix. *)
Lemma read_process_store_cases (PUNCT NLP_DIR ETL_DIR VOC_DIR : string)
  (join : string -> string -> string) (nlp : string -> Doc)
  (gc_first gc_second elapsed : Z) (file_path corpus_name : string)
  (do_store vocab_to_disk : bool) (start : Z) (stop : option Z)
  (kwargs : gmap string value) (w : world) :
  read_process_store PUNCT NLP_DIR ETL_DIR VOC_DIR join nlp gc_first
    gc_second elapsed file_path corpus_name do_store vocab_to_disk start stop
    kwargs w
  = let run :=
      run_from_read PUNCT NLP_DIR ETL_DIR VOC_DIR join nlp gc_first
        gc_second elapsed file_path corpus_name do_store vocab_to_disk start
        stop kwargs in
    match stop with
    | None =>
        if start =? 0 then run EmptyString "_nlp"%string w
        else (Raise TypeError_format,
              mkWorld (files w)
                (trace w ++ [Log ("*** start new corpus: " +:+ corpus_name)]))
    | Some s =>
        if (start =? 0) && (s =? 0) then run EmptyString "_nlp"%string w
        else run ("[" +:+ pretty start +:+ ":" +:+ pretty s +:+ "]")
               ("_" +:+ pretty start +:+ "_" +:+ pretty (s - 1) +:+ "_nlp") w
    end.
Proof.
  cbv zeta. unfold read_process_store, run_from_read.
  unfold mbind, IO_bind, logg, emit, lift, mret, IO_ret.
  cbn [truthy_int].
  destruct stop as [s|]; destruct (start =? 0) eqn:Hstart;
    [destruct (s =? 0) eqn:Hs | destruct (s =? 0) eqn:Hs | |];
    cbn [truthy_int]; rewrite ?Hstart, ?Hs;
    cbn [negb orb andb mbind result_bind format_d sub files trace fst snd].
  6:{ reflexivity. }
  all: rewrite read_eq; cbn [files trace];
    (destruct (read_table _ _ _ _ _ _) as [src|e];
     [|cbn [app]; rewrite <- ?app_assoc; reflexivity]);
    (destruct (process_docs PUNCT nlp src) as [df|e];
     [|cbn [files trace app]; rewrite <- ?app_assoc; reflexivity]);
    destruct (truthy _), do_store, vocab_to_disk;
    cbn [files trace fst snd]; rewrite ?store_eq; cbn [files trace fst snd app];
    rewrite <- ?app_assoc; reflexivity.
Qed.





(** X18.  With storing disabled, [read_process_store] writes no table,
    however it ends and whatever the other switches are: the files are as
    before and no table is pickled. *)
Theorem run_without_store_writes_no_table
  (PUNCT NLP_DIR ETL_DIR VOC_DIR : string)
  (join : string -> string -> string) (nlp : string -> Doc)
  (gc_first gc_second elapsed : Z) (file_path corpus_name : string)
  (vocab_to_disk : bool) (start : Z) (stop : option Z)
  (kwargs : gmap string value) (w : world) :
  let out :=
    read_process_store PUNCT NLP_DIR ETL_DIR VOC_DIR join nlp gc_first
      gc_second elapsed file_path corpus_name false vocab_to_disk start stop
      kwargs w in
  files out.2 = files w /\
  exists evs, trace out.2 = trace w ++ evs /\ forall p d, ToPickle p d ∉ evs.
Proof.
  intros out. subst out. rewrite read_process_store_cases. cbv zeta.
  assert (Hrun : forall slicing suffix,
            let out :=
              run_from_read PUNCT NLP_DIR ETL_DIR VOC_DIR join nlp gc_first
                gc_second elapsed file_path corpus_name false vocab_to_disk
                start stop kwargs slicing suffix w in
            files out.2 = files w /\
            exists evs,
              trace out.2 = trace w ++ evs /\ forall p d, ToPickle p d ∉ evs).
  { intros slicing suffix. cbv zeta. unfold run_from_read, read_log.
    destruct (read_table _ _ _ _ _ _) as [src|e'].
    - destruct (process_docs PUNCT nlp src) as [df|e']; cbn [fst snd files trace].
      + split; [done|]. eexists. split; [reflexivity|]. intros p d.
        destruct (truthy _), vocab_to_disk; cbn [app]; not_among.
      + split; [done|]. eexists. split; [reflexivity|]. intros p d.
        cbn [app]. not_among.
    - cbn [fst snd files trace]. split; [done|].
      eexists. split; [reflexivity|]. intros p d. not_among. }
  destruct stop as [s|].
  - destruct ((start =? 0) && (s =? 0)); apply Hrun.
  - destruct (start =? 0); [apply Hrun|].
    cbn [fst snd files trace]. split; [done|].
    eexists. split; [reflexivity|]. intros p d. not_among.
Qed.

(** X19.  The vocabulary is written last.  In a run of
    [read_process_store] that returns, what is done with the vocabulary
    directory (the log line, making the directory, writing the vocabulary)
    comes just before the closing log line and only when [vocab_to_disk] is
    set; nothing before it writes a vocabulary, and when storing is asked
    for the table has been pickled by then. *)
Theorem vocabulary_is_written_last (PUNCT NLP_DIR ETL_DIR VOC_DIR : string)
  (join : string -> string -> string) (nlp : string -> Doc)
  (gc_first gc_second elapsed : Z) (file_path corpus_name : string)
  (do_store vocab_to_disk : bool) (start : Z) (stop : option Z)
  (kwargs : gmap string value) (w : world) :
  let out :=
    read_process_store PUNCT NLP_DIR ETL_DIR VOC_DIR join nlp gc_first
      gc_second elapsed file_path corpus_name do_store vocab_to_disk start
      stop kwargs w in
  out.1 = Ok tt ->
  exists before done,
    trace out.2
    = trace w ++ before
      ++ (if vocab_to_disk
          then [ Log ("writing spacy vocab to disk: " +:+ VOC_DIR);
                 Makedirs VOC_DIR; VocabToDisk VOC_DIR ]
          else [])
      ++ [Log done] /\
    (forall p, VocabToDisk p ∉ before) /\
    (do_store = true -> exists p df, ToPickle p df ∈ before).
Proof.
  intros out. subst out. rewrite read_process_store_cases. cbv zeta.
  assert (Hrun : forall slicing suffix,
            let out :=
              run_from_read PUNCT NLP_DIR ETL_DIR VOC_DIR join nlp gc_first
                gc_second elapsed file_path corpus_name do_store
                vocab_to_disk start stop kwargs slicing suffix w in
            out.1 = Ok tt ->
            exists before done,
              trace out.2
              = trace w ++ before
                ++ (if vocab_to_disk
                    then [ Log ("writing spacy vocab to disk: " +:+ VOC_DIR);
                           Makedirs VOC_DIR; VocabToDisk VOC_DIR ]
                    else [])
                ++ [Log done] /\
              (forall p, VocabToDisk p ∉ before) /\
              (do_store = true -> exists p df, ToPickle p df ∈ before)).
  { intros slicing suffix. cbv zeta. unfold run_from_read.
    destruct (read_table _ _ _ _ _ _) as [src|e'];
      [|cbn [fst]; intros; discriminate].
    destruct (process_docs PUNCT nlp src) as [df|e'];
      [|cbn [fst]; intros; discriminate].
    cbn [fst snd files trace]. intros _.
    exists
      (([ Log ("*** start new corpus: " +:+ corpus_name);
          Log (corpus_name +:+ ": reading corpus" +:+ slicing +:+ " from "
               +:+ file_path) ]
        ++ [ read_log src;
             Log ("collect: " +:+ pretty gc_first);
             Log (corpus_name +:+ ": start processing") ])
       ++ [Log ("collect: " +:+ pretty gc_second)]
       ++ (if truthy (default (VBool false) (kwargs !! "print"))
           then [Tprint df (default (VInt 10) (kwargs !! "head"))]
           else [])
       ++ (if do_store
           then [ Makedirs NLP_DIR;
                  Log (corpus_name +:+ ": saving to "
                       +:+ join NLP_DIR
                             (corpus_name +:+ suffix +:+ ".pickle"));
                  ToPickle
                    (join NLP_DIR (corpus_name +:+ suffix +:+ ".pickle")) df ]
           else [])),
      (corpus_name +:+ ": done in "
       +:+ format_02d (elapsed / 3600) +:+ ":"
       +:+ format_02d ((elapsed / 60) mod 60) +:+ ":"
       +:+ format_02d (elapsed mod 60)).
    split; [|split].
    - f_equal. rewrite <- !app_assoc. reflexivity.
    - intros p. unfold read_log.
      destruct (truthy _), do_store; cbn [app]; not_among.
    - intros ->.
      exists (join NLP_DIR (corpus_name +:+ suffix +:+ ".pickle")), df.
      rewrite !elem_of_app. right. right. right.
      apply elem_of_cons. right. apply elem_of_cons. right.
      apply elem_of_cons. by left. }
  destruct stop as [s|].
  - destruct ((start =? 0) && (s =? 0)); apply Hrun.
  - destruct (start =? 0); [apply Hrun|]. cbn [fst]. intros; discriminate.
Qed.

Lemma vocabulary_is_written_last_witness :
  exists before done,
    trace
      (read_process_store "PUNCT" "nlp" "etl" "voc" sample_join sample_nlp 12
         3 3725 "etl/news.pickle" "news" true true 0 None ∅
         sample_world).2
    = trace sample_world ++ before
      ++ [ Log ("writing spacy vocab to disk: " +:+ "voc");
           Makedirs "voc"; VocabToDisk "voc" ]
      ++ [Log done] /\
    (forall p, VocabToDisk p ∉ before) /\
    (true = true -> exists p df, ToPickle p df ∈ before).
Proof.
  apply (vocabulary_is_written_last "PUNCT" "nlp" "etl" "voc" sample_join
           sample_nlp 12 3 3725 "etl/news.pickle" "news" true true 0 None
           ∅ sample_world).
  vm_compute. reflexivity.
Defined.



